(** * Joke catalogue: the admin menu loop and the rating window

    A shallow embedding of [admin.py] (the command-line catalogue manager)
    and [jokes.py] (the Tk rating window), both working on the JSON file
    [data.txt].

    Conventions of the embedding.
    - A Python [str] is a [string]; each character stands for the code point
      of the same number (U+0000 to U+00FF).
    - A Python [int] is a [Z].
    - A Python [list] is a [list], read with stdpp's lookup.
    - An uncaught exception ends the program; functions that can raise
      return a sum whose left side is the exception. *)

From Stdlib Require Import ZArith String Ascii List Floats Lia.
From Stdlib Require Import Decimal DecimalString DecimalPos DecimalFacts.
From stdpp Require Import base list strings.
Import ListNotations.

Local Open Scope string_scope.
Local Open Scope Z_scope.

(** ** The Python runtime the two programs use *)

Module Py.

(** The exception classes that the programs can meet. *)
Inductive exn :=
  | OSError
  | FileNotFoundError
  | PermissionError
  | ValueError
  | UnicodeDecodeError
  | JSONDecodeError
  | RecursionError
  | IndexError
  | EOFError.

Definition exn_eqb (a b : exn) : bool :=
  match a, b with
  | OSError, OSError | FileNotFoundError, FileNotFoundError
  | PermissionError, PermissionError | ValueError, ValueError
  | UnicodeDecodeError, UnicodeDecodeError
  | JSONDecodeError, JSONDecodeError
  | RecursionError, RecursionError
  | IndexError, IndexError | EOFError, EOFError => true
  | _, _ => false
  end.

(** The nearest ancestor of a class among these. *)
Definition base (e : exn) : option exn :=
  match e with
  | FileNotFoundError | PermissionError => Some OSError
  | UnicodeDecodeError | JSONDecodeError => Some ValueError
  | _ => None
  end.

(** [isinstance(e, cls)] for an exception [e]. *)
Definition isinstance (e cls : exn) : bool :=
  exn_eqb e cls ||
  match base e with
  | Some b => exn_eqb b cls
  | None => false
  end.

(** [except (c1, c2, ...)]: does the clause catch [e]? *)
Definition catches (classes : list exn) (e : exn) : bool :=
  existsb (isinstance e) classes.

(** [try: body / except classes: handler]. *)
Definition try_except {A} (body : exn + A) (classes : list exn) (handler : exn + A)
  : exn + A :=
  match body with
  | inl e => if catches classes e then handler else inl e
  | inr a => inr a
  end.

(** *** Characters *)

Definition code (c : ascii) : N := N_of_ascii c.

Definition between (lo hi n : N) : bool := ((lo <=? n) && (n <=? hi))%N.

(** [str.isspace] on one character: TAB to CR, FS to US, space, NEL, NBSP. *)
Definition isspace (c : ascii) : bool :=
  let n := code c in
  between 9 13 n || between 28 32 n || (n =? 133)%N || (n =? 160)%N.

(** The characters [int] skips around a number: TAB to CR, space, and the
    whitespace above U+007F. *)
Definition isspace_int (c : ascii) : bool :=
  let n := code c in
  between 9 13 n || (n =? 32)%N || (n =? 133)%N || (n =? 160)%N.

(** [str.isdigit] on one character: the decimal digits, and the superscript
    digits one, two and three. *)
Definition isdigit_char (c : ascii) : bool :=
  let n := code c in
  between 48 57 n || (n =? 178)%N || (n =? 179)%N || (n =? 185)%N.

(** The characters [int] reads as decimal digits. *)
Definition isdecimal_char (c : ascii) : bool := between 48 57 (code c).

Definition isupper_char (c : ascii) : bool :=
  let n := code c in
  between 65 90 n || between 192 214 n || between 216 222 n.

Definition lower_char (c : ascii) : ascii :=
  if isupper_char c then ascii_of_N (code c + 32) else c.

(** *** Strings *)

Definition nl : string := String (ascii_of_nat 10) "".

(** Truth value of a string: non-empty. *)
Definition truthy (s : string) : bool :=
  match s with
  | EmptyString => false
  | String _ _ => true
  end.

Fixpoint lower (s : string) : string :=
  match s with
  | EmptyString => EmptyString
  | String c r => String (lower_char c) (lower r)
  end.

(** [s] without the leading characters that [space] holds of. *)
Fixpoint lstrip_of (space : ascii -> bool) (s : string) : string :=
  match s with
  | EmptyString => EmptyString
  | String c r => if space c then lstrip_of space r else s
  end.

(** [s] without the trailing characters that [space] holds of. *)
Fixpoint rstrip_of (space : ascii -> bool) (s : string) : string :=
  match s with
  | EmptyString => EmptyString
  | String c r =>
      let r' := rstrip_of space r in
      if space c && negb (truthy r') then EmptyString else String c r'
  end.

Definition strip_of (space : ascii -> bool) (s : string) : string :=
  rstrip_of space (lstrip_of space s).

(** [s.lstrip()] and [s.strip()]. *)
Definition lstrip (s : string) : string := lstrip_of isspace s.
Definition strip (s : string) : string := strip_of isspace s.

(** The first word of [s] (up to the first whitespace) and what follows it. *)
Fixpoint word (s : string) : string * string :=
  match s with
  | EmptyString => (EmptyString, EmptyString)
  | String c r =>
      if isspace c then (EmptyString, s)
      else let (w, rest) := word r in (String c w, rest)
  end.

(** [s.split(maxsplit=1)]: the first word, then the remainder without its
    leading whitespace when that is not empty. *)
Definition split1 (s : string) : list string :=
  let s := lstrip s in
  if truthy s then
    let (w, rest) := word s in
    let rest := lstrip rest in
    if truthy rest then [w; rest] else [w]
  else [].

(** [s.isdigit()]. *)
Definition isdigit (s : string) : bool :=
  truthy s && forallb isdigit_char (list_ascii_of_string s).

Fixpoint startswith (s p : string) : bool :=
  match p, s with
  | EmptyString, _ => true
  | String a p', String b s' => Ascii.eqb a b && startswith s' p'
  | String _ _, EmptyString => false
  end.

(** [sub in s]. *)
Fixpoint contains (s sub : string) : bool :=
  startswith s sub ||
  match s with
  | EmptyString => false
  | String _ r => contains r sub
  end.

(** *** Integers and text *)

(** [str(n)], also what an f-string prints for an [int]. *)
Definition str (n : Z) : string := NilZero.string_of_int (Z.to_int n).

(** Digits with single underscores between them, as [int] accepts them;
    [acc] is the value read so far, [after_digit] tells whether the last
    character was a digit. *)
Fixpoint digits_value (s : string) (acc : Z) (after_digit : bool) : option Z :=
  match s with
  | EmptyString => if after_digit then Some acc else None
  | String c r =>
      if isdecimal_char c
      then digits_value r (10 * acc + Z.of_N (code c - 48)) true
      else if Ascii.eqb c "_" && after_digit then digits_value r acc false
      else None
  end.

(** [int(s)]: whitespace around, a sign, digits; [None] stands for
    [ValueError]. *)
Definition int (s : string) : option Z :=
  match strip_of isspace_int s with
  | EmptyString => None
  | String c r =>
      if Ascii.eqb c "-" then option_map Z.opp (digits_value r 0 false)
      else if Ascii.eqb c "+" then digits_value r 0 false
      else digits_value (String c r) 0 false
  end.

(** *** Floats: the percentages of the view command *)

(** An [int] as a binary number, with no rounding. *)
Definition exact (n : Z) : spec_float :=
  match n with
  | Z0 => S754_zero false
  | Zpos p => S754_finite false p 0
  | Zneg p => S754_finite true p 0
  end.

(** [a / b] on two [int]s of any size: the float nearest to the exact
    quotient, ties to even; the operands are not rounded first. Where
    Python raises (a divisor 0, a quotient too large for a float) the value
    is a nan or an infinity; the view command divides a count from 0 on by
    a total that is at least 1 and no smaller than the count. *)
Definition truediv (a b : Z) : float :=
  SF2Prim (SFdiv prec emax (exact a) (exact b)).

(** The integer nearest to [n * 2^e], ties to even. *)
Definition round_half_even (n e : Z) : Z :=
  if 0 <=? e then n * 2 ^ e
  else
    let d := 2 ^ (- e) in
    let q := n / d in
    let r := n mod d in
    if 2 * r <? d then q
    else if d <? 2 * r then q + 1
    else if Z.even q then q else q + 1.

(** [f"{x:.1f}"]: the decimal with one fractional digit nearest to the
    exact value of [x], ties to even. *)
Definition format_1f (x : float) : string :=
  match Prim2SF x with
  | S754_nan => "nan"
  | S754_infinity s => if s then "-inf" else "inf"
  | S754_zero s => if s then "-0.0" else "0.0"
  | S754_finite s m e =>
      let tenths := round_half_even (10 * Z.pos m) e in
      (if s then "-" else "") ++ str (tenths / 10) ++ "." ++ str (tenths mod 10)
  end.

End Py.

(** ** The catalogue and its file *)

(** What [json.load] can return: an object keeps its keys in file order,
    as a Python [dict] does. Numbers with a fraction or an exponent are
    left out; neither program writes one. *)
#[warnings="-register-all"]
Inductive value :=
  | JNull
  | JBool (b : bool)
  | JInt (n : Z)
  | JStr (s : string)
  | JList (items : list value)
  | JDict (fields : list (string * value)).

(** A joke: the dict built by the add command, with its four keys. *)
Record joke := Joke {
  setup : string;
  punchline : string;
  laughs : Z;
  groans : Z
}.

(** The dict literal of the add command, keys in the order it writes them. *)
Definition joke_value (j : joke) : value :=
  JDict [("setup", JStr (setup j)); ("punchline", JStr (punchline j));
         ("laughs", JInt (laughs j)); ("groans", JInt (groans j))].

(** The Python list held in [data]. *)
Definition catalogue_value (data : list joke) : value :=
  JList (map joke_value data).

(** Reading a loaded element back as a joke: a dict of that very shape. *)
Definition joke_of_value (v : value) : option joke :=
  match v with
  | JDict [(k1, JStr s); (k2, JStr p); (k3, JInt l); (k4, JInt g)] =>
      if String.eqb k1 "setup" && String.eqb k2 "punchline"
         && String.eqb k3 "laughs" && String.eqb k4 "groans"
      then Some (Joke s p l g) else None
  | _ => None
  end.

Fixpoint catalogue_of (items : list value) : option (list joke) :=
  match items with
  | [] => Some []
  | v :: rest =>
      match joke_of_value v, catalogue_of rest with
      | Some j, Some js => Some (j :: js)
      | _, _ => None
      end
  end.

(** The state of [data.txt] as [open] and [read] find it: no such file, a
    file the process may not read, bytes that are not text in the
    encoding in use, or a text. *)
Inductive file_state :=
  | Absent
  | Denied
  | Undecodable
  | Text (content : string).

(** The [n]-th element (from 0) of a Python list; a position past the end
    raises [IndexError]. *)
Definition subscript {A} (l : list A) (i : nat) : Py.exn + A :=
  match l !! i with
  | Some x => inr x
  | None => inl Py.IndexError
  end.

(** [max(l, key=key)]: the first element whose key no later one exceeds;
    [ValueError] on an empty list. *)
Fixpoint max_from {A} (key : A -> Z) (best : A) (l : list A) : A :=
  match l with
  | [] => best
  | x :: rest => max_from key (if key best <? key x then x else best) rest
  end.

Definition max_by {A} (key : A -> Z) (l : list A) : Py.exn + A :=
  match l with
  | [] => inl Py.ValueError
  | x :: rest => inr (max_from key x rest)
  end.

(** ** A reference JSON codec

    The text that [json.dump(obj, file, indent=4)] writes for a value, and a
    reader for JSON texts over the values above. Number literals with a
    fraction or an exponent and [\u] escapes above U+00FF denote nothing
    among these values; the reader rejects them. The reader has no bound
    on the depth of nesting, where the library's reader raises
    [RecursionError] beyond the interpreter's: what it does not read is
    refused with [JSONDecodeError]. *)

Module Json.

Definition quote : ascii := ascii_of_nat 34.
Definition backslash : ascii := ascii_of_nat 92.

Definition hex_digit (n : N) : ascii :=
  if (n <? 10)%N then ascii_of_N (48 + n) else ascii_of_N (87 + n).

(** One character inside a string literal, as [ensure_ascii] writes it. *)
Definition escape (c : ascii) : string :=
  let n := Py.code c in
  if (n =? 34)%N then String backslash (String quote "")
  else if (n =? 92)%N then String backslash (String backslash "")
  else if (n =? 10)%N then String backslash "n"
  else if (n =? 13)%N then String backslash "r"
  else if (n =? 9)%N then String backslash "t"
  else if (n =? 8)%N then String backslash "b"
  else if (n =? 12)%N then String backslash "f"
  else if Py.between 32 126 n then String c ""
  else String backslash ("u00" ++ String (hex_digit (n / 16)) (String (hex_digit (n mod 16)) "")).

Fixpoint escape_all (s : string) : string :=
  match s with
  | EmptyString => EmptyString
  | String c r => escape c ++ escape_all r
  end.

Definition dump_string (s : string) : string :=
  String quote (escape_all s ++ String quote "").

(** A newline and [level] indents of four spaces. *)
Fixpoint indent (level : nat) : string :=
  match level with
  | O => EmptyString
  | S n => "    " ++ indent n
  end.

Definition newline_indent (level : nat) : string := Py.nl ++ indent level.

(** The items of a non-empty container, one per line, separated by commas. *)
Fixpoint join_lines (level : nat) (items : list string) : string :=
  match items with
  | [] => EmptyString
  | [x] => x
  | x :: rest => x ++ "," ++ newline_indent level ++ join_lines level rest
  end.

Fixpoint dump (level : nat) (v : value) : string :=
  match v with
  | JNull => "null"
  | JBool true => "true"
  | JBool false => "false"
  | JInt n => Py.str n
  | JStr s => dump_string s
  | JList [] => "[]"
  | JList items =>
      "[" ++ newline_indent (S level)
          ++ join_lines (S level) (map (dump (S level)) items)
          ++ newline_indent level ++ "]"
  | JDict [] => "{}"
  | JDict fields =>
      "{" ++ newline_indent (S level)
          ++ join_lines (S level)
               (map (fun kv => dump_string (fst kv) ++ ": " ++ dump (S level) (snd kv))
                    fields)
          ++ newline_indent level ++ "}"
  end.

(** [json.dump(obj, file, indent=4)]. *)
Definition dumps (v : value) : string := dump 0 v.

(** The items of the array written for the jokes [j :: d]. *)
Definition items_text (j : joke) (d : list joke) : string :=
  join_lines 1 (map (dump 1) (map joke_value (j :: d))).

(** *** Reading *)

Definition is_ws (c : ascii) : bool :=
  let n := Py.code c in
  (n =? 32)%N || (n =? 9)%N || (n =? 10)%N || (n =? 13)%N.

Fixpoint skip_ws (s : string) : string :=
  match s with
  | EmptyString => EmptyString
  | String c r => if is_ws c then skip_ws r else s
  end.

Definition hex_value (c : ascii) : option N :=
  let n := Py.code c in
  if Py.between 48 57 n then Some (n - 48)%N
  else if Py.between 97 102 n then Some (n - 87)%N
  else if Py.between 65 70 n then Some (n - 55)%N
  else None.

Definition hex4 (a b c d : ascii) : option N :=
  match hex_value a, hex_value b, hex_value c, hex_value d with
  | Some x, Some y, Some z, Some w => Some (((x * 16 + y) * 16 + z) * 16 + w)%N
  | _, _, _, _ => None
  end.

(** The character a one-letter escape stands for. *)
Definition unescape (e : ascii) : option ascii :=
  let n := Py.code e in
  if (n =? 34)%N || (n =? 92)%N || (n =? 47)%N then Some e
  else if (n =? 98)%N then Some (ascii_of_nat 8)
  else if (n =? 102)%N then Some (ascii_of_nat 12)
  else if (n =? 110)%N then Some (ascii_of_nat 10)
  else if (n =? 114)%N then Some (ascii_of_nat 13)
  else if (n =? 116)%N then Some (ascii_of_nat 9)
  else None.

Definition push (c : ascii) (r : option (string * string)) : option (string * string) :=
  match r with
  | Some (s, rest) => Some (String c s, rest)
  | None => None
  end.

(** A string literal after its opening quote: the string, and the text
    after the closing quote. *)
Fixpoint scanstring (s : string) : option (string * string) :=
  match s with
  | EmptyString => None
  | String c r =>
      if Ascii.eqb c quote then Some (EmptyString, r)
      else if Ascii.eqb c backslash then
        match r with
        | EmptyString => None
        | String e r1 =>
            if Ascii.eqb e "u" then
              match r1 with
              | String h1 (String h2 (String h3 (String h4 r2))) =>
                  match hex4 h1 h2 h3 h4 with
                  | Some n =>
                      if (n <? 256)%N then push (ascii_of_N n) (scanstring r2) else None
                  | None => None
                  end
              | _ => None
              end
            else
              match unescape e with
              | Some ch => push ch (scanstring r1)
              | None => None
              end
        end
      else if (Py.code c <? 32)%N then None
      else push c (scanstring r)
  end.

(** [s] without the prefix [p]. *)
Fixpoint after (p s : string) : option string :=
  match p, s with
  | EmptyString, _ => Some s
  | String a p', String b s' => if Ascii.eqb a b then after p' s' else None
  | String _ _, EmptyString => None
  end.

(** The decimal digits at the head of [s], read onto [acc]. *)
Fixpoint scan_digits (s : string) (acc : Z) : Z * string :=
  match s with
  | EmptyString => (acc, EmptyString)
  | String c r =>
      if Py.isdecimal_char c
      then scan_digits r (10 * acc + Z.of_N (Py.code c - 48))
      else (acc, s)
  end.

(** [0], or a digit from 1 to 9 and more digits. *)
Definition scan_nat (s : string) : option (Z * string) :=
  match s with
  | EmptyString => None
  | String c r =>
      if Ascii.eqb c "0" then Some (0, r)
      else if Py.isdecimal_char c then Some (scan_digits s 0)
      else None
  end.

Definition scan_int (s : string) : option (Z * string) :=
  match after "-" s with
  | Some r =>
      match scan_nat r with
      | Some (n, rest) => Some (- n, rest)
      | None => None
      end
  | None => scan_nat s
  end.

(** [dict(pairs)]: a repeated key keeps its first place and its last value. *)
Fixpoint dict_set (k : string) (v : value) (d : list (string * value))
  : list (string * value) :=
  match d with
  | [] => [(k, v)]
  | (k', v') :: rest =>
      if String.eqb k k' then (k, v) :: rest else (k', v') :: dict_set k v rest
  end.

Definition dict_of (pairs : list (string * value)) : list (string * value) :=
  fold_left (fun d kv => dict_set (fst kv) (snd kv) d) pairs [].

(** A value at the head of [s]; the items of an array after its first
    bracket and whitespace; the members of an object likewise. [fuel]
    bounds the nesting and the number of items. *)
Fixpoint parse_value (fuel : nat) (s : string) : option (value * string) :=
  match fuel with
  | O => None
  | S fuel =>
      match s with
      | EmptyString => None
      | String c r =>
          if Ascii.eqb c quote then
            match scanstring r with
            | Some (str, rest) => Some (JStr str, rest)
            | None => None
            end
          else if Ascii.eqb c "[" then
            match after "]" (skip_ws r) with
            | Some rest => Some (JList [], rest)
            | None =>
                match parse_items fuel (skip_ws r) with
                | Some (items, rest) => Some (JList items, rest)
                | None => None
                end
            end
          else if Ascii.eqb c "{" then
            match after "}" (skip_ws r) with
            | Some rest => Some (JDict [], rest)
            | None =>
                match parse_members fuel (skip_ws r) with
                | Some (pairs, rest) => Some (JDict (dict_of pairs), rest)
                | None => None
                end
            end
          else if Ascii.eqb c "n" then option_map (pair JNull) (after "ull" r)
          else if Ascii.eqb c "t" then option_map (pair (JBool true)) (after "rue" r)
          else if Ascii.eqb c "f" then option_map (pair (JBool false)) (after "alse" r)
          else
            match scan_int s with
            | Some (n, rest) => Some (JInt n, rest)
            | None => None
            end
      end
  end
with parse_items (fuel : nat) (s : string) : option (list value * string) :=
  match fuel with
  | O => None
  | S fuel =>
      match parse_value fuel s with
      | Some (v, rest) =>
          match after "]" (skip_ws rest), after "," (skip_ws rest) with
          | Some rest', _ => Some ([v], rest')
          | None, Some rest' =>
              match parse_items fuel (skip_ws rest') with
              | Some (vs, rest'') => Some (v :: vs, rest'')
              | None => None
              end
          | None, None => None
          end
      | None => None
      end
  end
with parse_members (fuel : nat) (s : string) : option (list (string * value) * string) :=
  match fuel with
  | O => None
  | S fuel =>
      match s with
      | String c r =>
          if Ascii.eqb c quote then
            match scanstring r with
            | Some (key, rest) =>
                match after ":" (skip_ws rest) with
                | Some rest1 =>
                    match parse_value fuel (skip_ws rest1) with
                    | Some (v, rest2) =>
                        match after "}" (skip_ws rest2), after "," (skip_ws rest2) with
                        | Some rest3, _ => Some ([(key, v)], rest3)
                        | None, Some rest3 =>
                            match parse_members fuel (skip_ws rest3) with
                            | Some (kvs, rest4) => Some ((key, v) :: kvs, rest4)
                            | None => None
                            end
                        | None, None => None
                        end
                    | None => None
                    end
                | None => None
                end
            | None => None
            end
          else None
      | EmptyString => None
      end
  end.

(** The text [t] does not go on with a digit. *)
Definition ends_number (t : string) : Prop :=
  match t with
  | EmptyString => True
  | String c _ => Py.isdecimal_char c = false
  end.

(** The text [t] starts with a character that is no whitespace. *)
Definition starts_token (t : string) : Prop :=
  match t with
  | EmptyString => False
  | String c _ => is_ws c = false
  end.

(** [json.load] on the text of the file. *)
Definition loads (s : string) : option value :=
  match parse_value (S (String.length s)) (skip_ws s) with
  | Some (v, rest) =>
      match skip_ws rest with
      | EmptyString => Some v
      | _ => None
      end
  | None => None
  end.

(** The exception of this reader on a text it does not read. *)
Definition error (s : string) : Py.exn := Py.JSONDecodeError.

End Json.

Section Catalogue.

(** The library calls the embedding leaves open: the text [json.dump]
    writes with [indent=4]; the value [json.load] reads from a text, [None]
    when it raises, and then the exception it raises ([JSONDecodeError] on
    a text that is not JSON, [RecursionError] on a text nested too deep for
    the interpreter, be it JSON or not); [textwrap.shorten]; and the order
    [random.shuffle] draws. *)
Variable json_dump : value -> string.
Variable json_loads : string -> option value.
Variable json_error : string -> Py.exn.
Variable shorten : string -> Z -> string -> string.
Variable shuffle : list value -> list value.

Set Default Proof Using "Type".

(** [with open("data.txt", "r") as file: json.load(file)]. *)
Definition load_json (f : file_state) : Py.exn + value :=
  match f with
  | Absent => inl Py.FileNotFoundError
  | Denied => inl Py.PermissionError
  | Undecodable => inl Py.UnicodeDecodeError
  | Text content =>
      match json_loads content with
      | Some v => inr v
      | None => inl (json_error content)
      end
  end.

(** [with open("data.txt", "w") as file: json.dump(data, file, indent=4)]:
    the file is rewritten whole. *)
Definition write_json (data : list joke) : file_state :=
  Text (json_dump (catalogue_value data)).

(** *** admin.py *)

(** What the terminal shows: a printed line, or the prompt of an [input]. *)
Inductive output :=
  | Line (text : string)
  | Ask (prompt : string).

Record admin := Admin {
  data : list joke;
  file : file_state;
  stdin : list string;
  stdout : list output
}.

Definition set_data (d : list joke) (st : admin) : admin :=
  Admin d (file st) (stdin st) (stdout st).
Definition set_file (f : file_state) (st : admin) : admin :=
  Admin (data st) f (stdin st) (stdout st).
Definition set_stdin (i : list string) (st : admin) : admin :=
  Admin (data st) (file st) i (stdout st).
Definition emit (o : list output) (st : admin) : admin :=
  Admin (data st) (file st) (stdin st) (stdout st ++ o)%list.

(** A command of the program: it runs from a state and either returns or
    raises, leaving the state it reached. *)
Definition cli (A : Type) : Type := admin -> (Py.exn + A) * admin.

#[local] Instance cli_ret : MRet cli := fun A a st => (inr a, st).
#[local] Instance cli_bind : MBind cli := fun A B k m st =>
  match m st with
  | (inr a, st') => k a st'
  | (inl e, st') => (inl e, st')
  end.

Definition raise {A} (e : Py.exn) : cli A := fun st => (inl e, st).

Definition lift {A} (r : Py.exn + A) : cli A := fun st => (r, st).

Definition get_data : cli (list joke) := fun st => (inr (data st), st).

Definition print (text : string) : cli unit :=
  fun st => (inr tt, emit [Line text] st).

Definition print_all (texts : list string) : cli unit :=
  fun st => (inr tt, emit (map Line texts) st).

(** [input(prompt)]: the next line of the terminal, [EOFError] at its end. *)
Definition input (prompt : string) : cli string := fun st =>
  match stdin st with
  | [] => (inl Py.EOFError, emit [Ask prompt] st)
  | l :: rest => (inr l, set_stdin rest (emit [Ask prompt] st))
  end.

(** The loop of [input_int], over the lines still to come. *)
Fixpoint input_int_loop (prompt : string) (lines : list string) (out : list output)
  : (Py.exn + Z) * (list string * list output) :=
  match lines with
  | [] => (inl Py.EOFError, ([], (out ++ [Ask prompt])%list))
  | l :: rest =>
      match Py.int l with
      | Some value =>
          if 1 <=? value then (inr value, (rest, (out ++ [Ask prompt])%list))
          else input_int_loop prompt rest
                 (out ++ [Ask prompt; Line "Please enter a number of 1 or higher."])%list
      | None =>
          input_int_loop prompt rest
            (out ++ [Ask prompt; Line "Invalid input. Please enter a whole number."])%list
      end
  end.

Definition input_int (prompt : string) : cli Z := fun st =>
  let '(r, (lines, out)) := input_int_loop prompt (stdin st) [] in
  (r, set_stdin lines (emit out st)).

(** The loop of [input_something]. *)
Fixpoint input_something_loop (prompt : string) (lines : list string) (out : list output)
  : (Py.exn + string) * (list string * list output) :=
  match lines with
  | [] => (inl Py.EOFError, ([], (out ++ [Ask prompt])%list))
  | l :: rest =>
      let text := Py.strip l in
      if Py.truthy text then (inr text, (rest, (out ++ [Ask prompt])%list))
      else input_something_loop prompt rest
             (out ++ [Ask prompt; Line "Input cannot be blank. Please try again."])%list
  end.

Definition input_something (prompt : string) : cli string := fun st =>
  let '(r, (lines, out)) := input_something_loop prompt (stdin st) [] in
  (r, set_stdin lines (emit out st)).

Definition save_data (data_list : list joke) : cli unit :=
  fun st => (inr tt, set_file (write_json data_list) st).

(** Program initialization: the value bound to [data] before the menu. *)
Definition admin_load (f : file_state) : Py.exn + list value :=
  Py.try_except
    (match load_json f with
     | inl e => inl e
     | inr (JList items) => inr items
     | inr _ => inl Py.ValueError
     end)
    [Py.FileNotFoundError; Py.JSONDecodeError; Py.ValueError]
    (inr []).

Definition set_catalogue (d : list joke) : cli unit :=
  fun st => (inr tt, set_data d st).

(** [if arg]: an argument was given on the command line. *)
Definition given (arg : option string) : option string :=
  match arg with
  | Some a => if Py.truthy a then Some a else None
  | None => None
  end.

(** [enumerate(data, start=1)]. *)
Definition enumerate1 {A} (l : list A) : list (Z * A) :=
  imap (fun i x => (Z.of_nat i + 1, x)) l.

(** [f"{i}) {short_setup}"], the setup shortened to 50 columns. *)
Definition listing (entry : Z * joke) : string :=
  Py.str (fst entry) ++ ") " ++ shorten (setup (snd entry)) 50 "...".

(** The add command. *)
Definition cmd_add : cli unit :=
  setup ← input_something "Enter setup of joke: ";
  punchline ← input_something "Enter punchline of joke: ";
  let joke := Joke setup punchline 0 0 in
  d ← get_data;
  _ ← set_catalogue (d ++ [joke])%list;
  d ← get_data;
  _ ← save_data d;
  print "Joke added.".

(** The list command. *)
Definition cmd_list : cli unit :=
  d ← get_data;
  match d with
  | [] => print "No jokes saved."
  | _ =>
      _ ← print "List of jokes:";
      print_all (map listing (enumerate1 d))
  end.

(** The test of the search loop on one joke. *)
Definition matches (term : string) (j : joke) : bool :=
  Py.contains (Py.lower (setup j)) term
  || Py.contains (Py.lower (punchline j)) term.

(** The entries the search loop prints, in order. *)
Definition search_hits (term : string) (d : list joke) : list (Z * joke) :=
  List.filter (fun entry => matches term (snd entry)) (enumerate1 d).

(** [arg.lower() if arg else input_something("Enter search term: ").lower()]. *)
Definition read_term (arg : option string) : cli string :=
  match given arg with
  | Some a => mret (Py.lower a)
  | None => t ← input_something "Enter search term: "; mret (Py.lower t)
  end.

(** The search command. *)
Definition cmd_search (arg : option string) : cli unit :=
  d ← get_data;
  match d with
  | [] => print "No jokes saved."
  | _ =>
      term ← read_term arg;
      _ ← print "Search results:";
      let hits := search_hits term d in
      _ ← print_all (map listing hits);
      match hits with
      | [] => print "No results found."
      | _ => mret tt
      end
  end.

(** [int(arg) - 1 if arg and arg.isdigit() else input_int(prompt) - 1]. *)
Definition read_index (arg : option string) (prompt : string) : cli Z :=
  match given arg with
  | Some a =>
      if Py.isdigit a then
        match Py.int a with
        | Some n => mret (n - 1)
        | None => raise Py.ValueError
        end
      else n ← input_int prompt; mret (n - 1)
  | None => n ← input_int prompt; mret (n - 1)
  end.

Definition hilarious : string := "This joke is hilarious!".
Definition groantastic : string := "This joke is groantastic!".

(** The extra commentary of the view command. *)
Definition commentary (laughs groans : Z) : option string :=
  if (5 <=? laughs) && (groans =? 0) then Some hilarious
  else if (5 <=? groans) && (laughs =? 0) then Some groantastic
  else if (4 * groans <=? laughs) && (0 <? groans) then Some hilarious
  else if (4 * laughs <=? groans) && (0 <? laughs) then Some groantastic
  else None.

(** [(count / total) * 100 if total else 0]. *)
Definition percentage (count total : Z) : float :=
  if total =? 0 then 0%float else (Py.truediv count total * 100)%float.

(** The line with both counters and their percentages. *)
Definition stats_line (laughs groans : Z) : string :=
  let total := laughs + groans in
  let laugh_pct := percentage laughs total in
  let groan_pct := percentage groans total in
  "Laughs: " ++ Py.str laughs ++ " (" ++ Py.format_1f laugh_pct ++ "%), Groans: "
    ++ Py.str groans ++ " (" ++ Py.format_1f groan_pct ++ "%)".

Definition unrated : string := "This joke has not been rated.".

(** What the view command prints about the ratings of a joke. *)
Definition rating_report (laughs groans : Z) : list string :=
  if (laughs =? 0) && (groans =? 0) then [unrated]
  else
    stats_line laughs groans :: option_list (commentary laughs groans).

(** What the view command prints for a joke. *)
Definition view_lines (j : joke) : list string :=
  (Py.nl ++ setup j ++ Py.nl ++ punchline j) :: rating_report (laughs j) (groans j).

Definition in_range (index : Z) (d : list joke) : bool :=
  (0 <=? index) && (index <? Z.of_nat (length d)).

(** The view command. *)
Definition cmd_view (arg : option string) : cli unit :=
  d ← get_data;
  match d with
  | [] => print "No jokes saved."
  | _ =>
      index ← read_index arg "Joke number to view: ";
      if in_range index d then
        joke ← lift (subscript d (Z.to_nat index));
        print_all (view_lines joke)
      else print "Invalid index number."
  end.

(** The delete command. *)
Definition cmd_delete (arg : option string) : cli unit :=
  d ← get_data;
  match d with
  | [] => print "No jokes saved."
  | _ =>
      index ← read_index arg "Joke number to delete: ";
      if in_range index d then
        _ ← set_catalogue (delete (Z.to_nat index) d);
        d ← get_data;
        _ ← save_data d;
        print "Joke deleted."
      else print "Invalid index number."
  end.

(** What the top command prints for one of its two jokes. *)
Definition top_lines (title : string) (j : joke) : list string :=
  [Py.nl ++ title; setup j; "Punchline: " ++ punchline j;
   "Laughs: " ++ Py.str (laughs j) ++ ", Groans: " ++ Py.str (groans j)].

(** The top command. *)
Definition cmd_top : cli unit :=
  d ← get_data;
  match d with
  | [] => print "No jokes saved."
  | _ =>
      top_laughs ← lift (max_by laughs d);
      top_groans ← lift (max_by groans d);
      _ ← print_all (top_lines "Top Laughs Joke:" top_laughs);
      print_all (top_lines "Top Groans Joke:" top_groans)
  end.

(** How one turn of the menu loop ends. *)
Inductive control := Next | Break.

Definition menu : string :=
  Py.nl ++ "Choose [a]dd, [l]ist, [s]earch, [v]iew, [d]elete, [t]op or [q]uit.".

Definition invalid_choice : string := "Invalid choice. Please try again.".

(** One turn of the main menu loop. *)
Definition menu_step : cli control :=
  _ ← print menu;
  line ← input "> ";
  let user_input := Py.strip line in
  let parts := Py.split1 user_input in
  first ← lift (subscript parts 0);
  let choice := Py.lower first in
  let arg := if 1 <? Z.of_nat (length parts) then parts !! 1%nat else None in
  if String.eqb choice "a" then _ ← cmd_add; mret Next
  else if String.eqb choice "l" then _ ← cmd_list; mret Next
  else if String.eqb choice "s" then _ ← cmd_search arg; mret Next
  else if String.eqb choice "v" then _ ← cmd_view arg; mret Next
  else if String.eqb choice "d" then _ ← cmd_delete arg; mret Next
  else if String.eqb choice "t" then _ ← cmd_top; mret Next
  else if String.eqb choice "q" then _ ← print "Goodbye!"; mret Break
  else _ ← print invalid_choice; mret Next.

(** The menu loop, for at most [turns] turns. *)
Fixpoint menu_loop (turns : nat) : cli control :=
  match turns with
  | O => mret Next
  | S n =>
      c ← menu_step;
      match c with
      | Break => mret Break
      | Next => menu_loop n
      end
  end.

Definition welcome : string := "Welcome to the Joke Catalogue Admin Program.".

(** The program up to its menu loop: the catalogue is loaded and the
    welcome printed. The commands work on joke objects, so the result is
    [None] when a loaded element is not one. *)
Definition admin_start (f : file_state) (lines : list string)
  : Py.exn + option admin :=
  match admin_load f with
  | inl e => inl e
  | inr items =>
      inr (option_map (fun d => Admin d f lines [Line welcome]) (catalogue_of items))
  end.

(** *** jokes.py *)

#[local] Instance result_ret : MRet (sum Py.exn) := fun A a => inr a.
#[local] Instance result_bind : MBind (sum Py.exn) := fun A B k m =>
  match m with
  | inr a => k a
  | inl e => inl e
  end.

(** A message box. *)
Inductive dialog :=
  | ShowError (title message : string)
  | ShowInfo (title message : string).

(** [info_text]: no ratings yet, or both counters. *)
Inductive rating_info :=
  | NoRatings
  | Counts (laughs groans : Z).

(** The progress label: joke [shown] of [total], and the rating info. *)
Record progress := Progress {
  shown : Z;
  total : Z;
  info : rating_info
}.

Record gui := GUI {
  gui_data : list joke;
  current_joke : nat;
  gui_file : file_state;
  setup_label : string;
  punchline_label : string;
  progress_label : progress;
  click_text : string;
  dialogs : list dialog;
  destroyed : bool
}.

Definition set_gui_data (d : list joke) (g : gui) : gui :=
  GUI d (current_joke g) (gui_file g) (setup_label g) (punchline_label g)
      (progress_label g) (click_text g) (dialogs g) (destroyed g).
Definition set_gui_file (f : file_state) (g : gui) : gui :=
  GUI (gui_data g) (current_joke g) f (setup_label g) (punchline_label g)
      (progress_label g) (click_text g) (dialogs g) (destroyed g).
Definition set_current (i : nat) (g : gui) : gui :=
  GUI (gui_data g) i (gui_file g) (setup_label g) (punchline_label g)
      (progress_label g) (click_text g) (dialogs g) (destroyed g).
Definition set_punchline_label (text : string) (g : gui) : gui :=
  GUI (gui_data g) (current_joke g) (gui_file g) (setup_label g) text
      (progress_label g) (click_text g) (dialogs g) (destroyed g).
Definition showinfo (title message : string) (g : gui) : gui :=
  GUI (gui_data g) (current_joke g) (gui_file g) (setup_label g) (punchline_label g)
      (progress_label g) (click_text g) (dialogs g ++ [ShowInfo title message])%list
      (destroyed g).
Definition destroy (g : gui) : gui :=
  GUI (gui_data g) (current_joke g) (gui_file g) (setup_label g) (punchline_label g)
      (progress_label g) (click_text g) (dialogs g) true.

Definition placeholder : string := "(Click to reveal punchline)".

(** [show_joke]: the labels for the current joke; a click on the punchline
    label will reveal its punchline. *)
Definition show_joke (g : gui) : Py.exn + gui :=
  joke ← subscript (gui_data g) (current_joke g);
  let info_text :=
    if (laughs joke =? 0) && (groans joke =? 0) then NoRatings
    else Counts (laughs joke) (groans joke) in
  mret (GUI (gui_data g) (current_joke g) (gui_file g)
            (setup joke) placeholder
            (Progress (Z.of_nat (current_joke g) + 1)
                      (Z.of_nat (length (gui_data g))) info_text)
            (punchline joke) (dialogs g) (destroyed g)).

Definition reveal_punchline (text : string) (g : gui) : gui :=
  set_punchline_label text g.

(** The click on the punchline label, as [show_joke] bound it. *)
Definition click (g : gui) : gui := reveal_punchline (click_text g) g.

(** The key a rating button passes: ['laughs'] or ['groans']. *)
Inductive rating := OnLaughs | OnGroans.

(** [joke[rating] += 1]. *)
Definition add_one (r : rating) (j : joke) : joke :=
  match r with
  | OnLaughs => Joke (setup j) (punchline j) (laughs j + 1) (groans j)
  | OnGroans => Joke (setup j) (punchline j) (laughs j) (groans j + 1)
  end.

Definition is_last (g : gui) : bool :=
  Z.of_nat (current_joke g) =? Z.of_nat (length (gui_data g)) - 1.

Definition rate_joke (r : rating) (g : gui) : Py.exn + gui :=
  joke ← subscript (gui_data g) (current_joke g);
  let g := set_gui_data (<[current_joke g := add_one r joke]> (gui_data g)) g in
  let g := set_gui_file (write_json (gui_data g)) g in
  if is_last g then
    mret (destroy (showinfo "Rating Recorded"
                            "That was the last joke. Thanks for rating!" g))
  else
    let g := showinfo "Rating Recorded"
               ("Thank you for rating!" ++ Py.nl ++ "The next joke will now appear.") g in
    show_joke (set_current (current_joke g + 1)%nat g).

Definition abstain_joke (g : gui) : Py.exn + gui :=
  if is_last g then
    mret (destroy (showinfo "End" "That was the last joke. No rating recorded." g))
  else
    let g := showinfo "Skipped"
               ("You abstained from rating." ++ Py.nl ++ "The next joke will now appear.") g in
    show_joke (set_current (current_joke g + 1)%nat g).

(** The load at the start of the constructor: the shuffled list, or the
    error box after which the window is destroyed and the constructor
    returns. *)
Inductive loaded :=
  | Shuffled (items : list value)
  | Refused (box : dialog).

Definition gui_load (f : file_state) : Py.exn + loaded :=
  Py.try_except
    (match load_json f with
     | inl e => inl e
     | inr (JList (v :: rest)) => inr (Shuffled (shuffle (v :: rest)))
     | inr _ => inl Py.ValueError
     end)
    [Py.FileNotFoundError; Py.JSONDecodeError; Py.ValueError]
    (inr (Refused (ShowError "Error" "Missing/Invalid file."))).

(** The window once the constructor has run. *)
Inductive window :=
  | Presenting (g : gui)
  | Closed (box : dialog).

(** The constructor; [None] when a loaded element is not a joke object. *)
Definition ProgramGUI (f : file_state) : Py.exn + option window :=
  r ← gui_load f;
  match r with
  | Refused box => mret (Some (Closed box))
  | Shuffled items =>
      match catalogue_of items with
      | None => mret None
      | Some d =>
          g ← show_joke (GUI d 0 f "" "" (Progress 0 0 NoRatings) "" [] false);
          mret (Some (Presenting g))
      end
  end.

(** What the user can do in the window: press one of the three buttons,
    or click on the punchline label. *)
Inductive event := Laugh | Abstain | Groan | Click.

(** The callback bound to each. *)
Definition handle (e : event) (g : gui) : Py.exn + gui :=
  match e with
  | Laugh => rate_joke OnLaughs g
  | Abstain => abstain_joke g
  | Groan => rate_joke OnGroans g
  | Click => mret (click g)
  end.

(** [mainloop]: the callbacks run in the order of the events until the
    window is destroyed. The run is cut at the first callback that raises;
    none does from a window on a joke ([mainloop_rates_in_order]). *)
Fixpoint mainloop (events : list event) (g : gui) : Py.exn + gui :=
  match events with
  | [] => mret g
  | e :: rest =>
      if destroyed g then mret g
      else g' ← handle e g; mainloop rest g'
  end.

(** ** The notions of the statements *)

(** The failures of the load: the file is absent, it cannot be read (it
    may not be opened, or its bytes are no text), [json.load] raises on
    its text, or the value read is not an array. *)
Inductive load_failure : file_state -> Prop :=
  | file_absent : load_failure Absent
  | file_denied : load_failure Denied
  | file_undecodable : load_failure Undecodable
  | invalid_json content :
      json_loads content = None -> load_failure (Text content)
  | not_an_array content v :
      json_loads content = Some v -> (forall items, v <> JList items) ->
      load_failure (Text content).

(** The classes that the [except] clauses of both programs name. *)
Definition handled : list Py.exn :=
  [Py.FileNotFoundError; Py.JSONDecodeError; Py.ValueError].

(** The failures that the [except] clauses of both programs name: the
    file is absent, its bytes are no text, [json.load] raises
    [JSONDecodeError] or another [ValueError] on its text, or the value
    read is not an array. *)
Inductive caught_failure : file_state -> Prop :=
  | caught_absent : caught_failure Absent
  | caught_undecodable : caught_failure Undecodable
  | caught_invalid_json content :
      json_loads content = None ->
      Py.isinstance (json_error content) Py.ValueError = true ->
      caught_failure (Text content)
  | caught_not_an_array content v :
      json_loads content = Some v -> (forall items, v <> JList items) ->
      caught_failure (Text content).

(** The file holds the empty array. *)
Definition empty_array (f : file_state) : Prop :=
  exists content, f = Text content /\ json_loads content = Some (JList []).

Definition error_box : dialog := ShowError "Error" "Missing/Invalid file.".

(** The labels after [show_joke] has run for the joke [j]. *)
Definition presents (g : gui) (j : joke) : Prop :=
  setup_label g = setup j
  /\ punchline_label g = placeholder
  /\ click_text g = punchline j
  /\ shown (progress_label g) = Z.of_nat (current_joke g) + 1
  /\ total (progress_label g) = Z.of_nat (length (gui_data g)).

(** How a press on Laugh, Groan or Abstain leaves the window: closed on
    the last joke, otherwise on the next one. *)
Definition advanced (g g' : gui) (last_box next_box : dialog) : Prop :=
  if decide (S (current_joke g) = length (gui_data g))
  then destroyed g' = true
       /\ current_joke g' = current_joke g
       /\ dialogs g' = (dialogs g ++ [last_box])%list
  else destroyed g' = destroyed g
       /\ current_joke g' = S (current_joke g)
       /\ dialogs g' = (dialogs g ++ [next_box])%list
       /\ exists next, gui_data g' !! S (current_joke g) = Some next /\ presents g' next.

(** The joke [j'] is [j] with one more on the counter [r] and nothing else
    changed. *)
Definition rated (r : rating) (j j' : joke) : Prop :=
  setup j' = setup j /\ punchline j' = punchline j
  /\ match r with
     | OnLaughs => laughs j' = laughs j + 1 /\ groans j' = groans j
     | OnGroans => groans j' = groans j + 1 /\ laughs j' = laughs j
     end.

(** The joke [m] stands at position [i] of [l], no joke of [l] has a larger
    key, and every joke before position [i] has a smaller one. *)
Definition first_max (key : joke -> Z) (l : list joke) (i : nat) (m : joke) : Prop :=
  l !! i = Some m
  /\ (forall k x, l !! k = Some x -> key x <= key m)
  /\ (forall k x, (k < i)%nat -> l !! k = Some x -> key x < key m).

(** [sub] occurs inside [s]. *)
Definition substring_of (sub s : string) : Prop :=
  exists pre post, s = pre ++ sub ++ post.

(** The letters the menu loop knows. *)
Definition commands : list string := ["a"; "l"; "s"; "v"; "d"; "t"; "q"].

(** The JSON library reads back the catalogues it writes. *)
Definition codec_round_trips : Prop :=
  forall d : list joke,
    json_loads (json_dump (catalogue_value d)) = Some (catalogue_value d).

(** The tenths that [format_1f] prints for a float from 0 on. *)
Definition tenths (x : float) : option Z :=
  match Prim2SF x with
  | S754_zero false => Some 0
  | S754_finite false m e => Some (Py.round_half_even (10 * Z.pos m) e)
  | _ => None
  end.

(** The percentage printed for [count] out of [total] is a number of
    tenths [t] with [t / 10] at most 0.05 away from the exact
    [count / total * 100]. *)
Definition nearest_tenth (count total : Z) : bool :=
  match tenths (percentage count total) with
  | Some t =>
      String.eqb (Py.format_1f (percentage count total))
                 (Py.str (t / 10) ++ "." ++ Py.str (t mod 10))
      && (2 * Z.abs (t * total - 1000 * count) <=? total)
  | None => false
  end.

(** [nearest_tenth] on every count out of every total from 1 to [bound]. *)
Definition all_nearest (bound : nat) : bool :=
  forallb (fun total =>
             forallb (fun count => nearest_tenth (Z.of_nat count) (Z.of_nat total))
                     (seq 0 (S total)))
          (seq 1 bound).

(** A catalogue of three jokes, the first two tied on laughs and the last
    two on groans, and programs holding it. *)
Definition chicken : joke :=
  Joke "Why did the Chicken cross the road?" "To get to the other side." 5 1.
Definition hobbit : joke :=
  Joke "What do you call a hobbit party?" "A little get-together." 5 9.
Definition atoms : joke :=
  Joke "Why can you not trust atoms?" "They make up everything." 3 9.

Definition three_jokes : list joke := [chicken; hobbit; atoms].

Definition at_menu (lines : list string) : admin :=
  Admin three_jokes Absent lines [].

Definition window_at (i : nat) : gui :=
  GUI three_jokes i Absent "" placeholder (Progress 0 0 NoRatings) "" [] false.

(** A line that [input_int] turns down: no integer, or one below 1; and
    what it prints about it. *)
Definition rejected (l : string) : Prop :=
  match Py.int l with
  | Some n => n < 1
  | None => True
  end.

Definition complaint (l : string) : string :=
  match Py.int l with
  | Some _ => "Please enter a number of 1 or higher."
  | None => "Invalid input. Please enter a whole number."
  end.

(** A line that [input_something] turns down: nothing but whitespace. *)
Definition blank (l : string) : Prop := Py.truthy (Py.strip l) = false.

(** The prompt and the answer shown for each line that was turned down. *)
Definition refusals (prompt : string) (answer : string -> string) (bad : list string)
  : list output :=
  flat_map (fun l => [Ask prompt; Line (answer l)]) bad.

(** A command that leaves the catalogue and the file alone and only
    takes lines from the terminal. *)
Definition reads_only {A} (m : cli A) : Prop :=
  forall st r st',
    m st = (r, st') ->
    data st' = data st /\ file st' = file st
    /\ (length (stdin st') <= length (stdin st))%nat.

(** How a command leaves the catalogue and the file: as they were, or
    with one joke added at the end, or with one joke removed, the file
    rewritten in both cases. *)
Inductive change (st st' : admin) : Prop :=
  | unchanged :
      data st' = data st -> file st' = file st -> change st st'
  | added s p :
      s <> "" -> p <> "" ->
      data st' = (data st ++ [Joke s p 0 0])%list ->
      file st' = write_json (data st') -> change st st'
  | removed i j :
      data st !! i = Some j -> data st' = delete i (data st) ->
      file st' = write_json (data st') -> change st st'.

(** A command that raises nothing but [EOFError] at the end of the
    input, or an exception that [other] allows. *)
Definition fails_with {A} (other : Py.exn -> Prop) (m : cli A) : Prop :=
  forall st e st',
    m st = (inl e, st') -> (e = Py.EOFError /\ stdin st' = []) \/ other e.

(** An argument that passes [isdigit] and that [int] refuses. *)
Definition undecimal (arg : string) : Prop :=
  Py.isdigit arg = true /\ Py.int arg = None.


(** Started on the file, the admin program finds the catalogue in memory. *)
Definition file_follows (st : admin) : Prop :=
  forall lines,
    admin_start (file st) lines
    = inr (Some (Admin (data st) (file st) lines [Line welcome])).

(** What an event does to the joke under the cursor, and whether it moves
    the cursor on. *)
Definition outcome (e : event) (j : joke) : joke :=
  match e with
  | Laugh => add_one OnLaughs j
  | Groan => add_one OnGroans j
  | Abstain | Click => j
  end.

Definition moves_on (e : event) : bool :=
  match e with
  | Click => false
  | _ => true
  end.

(** How a press on a button leaves the cursor and the labels: on the last
    joke the window is destroyed as it stands, otherwise the next joke is
    presented. *)
Definition moved (g g1 : gui) : Prop :=
  if decide (S (current_joke g) = length (gui_data g))
  then destroyed g1 = true
       /\ current_joke g1 = current_joke g
       /\ setup_label g1 = setup_label g
       /\ click_text g1 = click_text g
       /\ punchline_label g1 = punchline_label g
  else destroyed g1 = destroyed g
       /\ current_joke g1 = S (current_joke g)
       /\ exists next, gui_data g1 !! S (current_joke g) = Some next /\ presents g1 next.

(** The window shows the joke under its cursor: its setup, and its
    punchline once clicked. *)
Definition shows (g : gui) : Prop :=
  exists j,
    gui_data g !! current_joke g = Some j
    /\ setup_label g = setup j
    /\ click_text g = punchline j
    /\ (punchline_label g = placeholder \/ punchline_label g = punchline j).

(** Propositional steps, without the library calls in the context. *)
Ltac prop :=
  try clear json_dump; try clear json_loads; try clear json_error;
  try clear shorten; try clear shuffle;
  tauto.

(** Running a command step by step. *)
Ltac run :=
  unfold mbind, cli_bind, mret, cli_ret, get_data, print, print_all, lift,
    set_catalogue, save_data, raise; simpl.

(** ** Properties *)

(** *** Loading *)

Lemma caught_is_load_failure f : caught_failure f -> load_failure f.
Proof. destruct 1; eauto using load_failure. Qed.

Lemma handled_ValueError e :
  Py.isinstance e Py.ValueError = true -> Py.catches handled e = true.
Proof.
  intros He. unfold Py.catches, handled. cbn [existsb]. rewrite He.
  now rewrite !orb_true_r.
Qed.

Lemma admin_load_caught f : caught_failure f -> admin_load f = inr [].
Proof.
  destruct 1 as [ | | content Hnone Hclass | content v Hsome Hshape ];
    unfold admin_load, load_json; try reflexivity.
  - rewrite Hnone. unfold Py.try_except. fold handled.
    now rewrite (handled_ValueError _ Hclass).
  - rewrite Hsome. destruct v; try reflexivity. now destruct (Hshape items).
Qed.

Lemma gui_load_caught f : caught_failure f -> gui_load f = inr (Refused error_box).
Proof.
  destruct 1 as [ | | content Hnone Hclass | content v Hsome Hshape ];
    unfold gui_load, load_json; try reflexivity.
  - rewrite Hnone. unfold Py.try_except. fold handled.
    now rewrite (handled_ValueError _ Hclass).
  - rewrite Hsome. destruct v; try reflexivity. now destruct (Hshape items).
Qed.

Lemma load_uncaught content :
  json_loads content = None ->
  Py.catches handled (json_error content) = false ->
  admin_load (Text content) = inl (json_error content)
  /\ gui_load (Text content) = inl (json_error content).
Proof.
  intros Hnone Hclass. unfold admin_load, gui_load, load_json, Py.try_except.
  rewrite Hnone. fold handled. now rewrite Hclass.
Qed.

Lemma gui_load_empty_array f : empty_array f -> gui_load f = inr (Refused error_box).
Proof.
  intros (content & -> & Hload). unfold gui_load, load_json. now rewrite Hload.
Qed.

(** C2, as the code has it: when the file is absent, its bytes are no
    text, [json.load] raises [JSONDecodeError] or another [ValueError] on
    its text, or the value read is not an array, the admin program starts
    its menu with an empty catalogue and the welcome printed, and the
    rating window shows the error box and is closed without presenting a
    joke; the window does the same on the empty array. A file that may not
    be opened is not among these, nor is a text on which [json.load]
    raises an exception of another class, [RecursionError] on deep nesting
    for one: that exception ends both programs, the admin program before
    its welcome and the window before any box. *)
Theorem load_failure_recovered_by_admin_fatal_to_gui (f : file_state) (lines : list string) :
  (caught_failure f ->
     admin_load f = inr []
     /\ admin_start f lines = inr (Some (Admin [] f lines [Line welcome])))
  /\ (caught_failure f \/ empty_array f ->
        gui_load f = inr (Refused error_box)
        /\ ProgramGUI f = inr (Some (Closed error_box)))
  /\ (forall content,
        f = Text content ->
        json_loads content = None ->
        Py.catches handled (json_error content) = false ->
        admin_start f lines = inl (json_error content)
        /\ ProgramGUI f = inl (json_error content))
  /\ Py.catches handled Py.RecursionError = false.
Proof.
  split; [ | split; [ | split]].
  - intros Hf. unfold admin_start. now rewrite (admin_load_caught f Hf).
  - intros Hf.
    assert (Hload : gui_load f = inr (Refused error_box))
      by (destruct Hf; auto using gui_load_caught, gui_load_empty_array).
    split; [exact Hload|]. unfold ProgramGUI. now rewrite Hload.
  - intros content -> Hnone Hclass.
    destruct (load_uncaught content Hnone Hclass) as [Hadmin Hgui].
    unfold admin_start, ProgramGUI. now rewrite Hadmin, Hgui.
  - reflexivity.
Qed.

(** *** The rating window *)

Lemma subscript_Some {A} (l : list A) i x : l !! i = Some x -> subscript l i = inr x.
Proof. unfold subscript. now intros ->. Qed.

Lemma is_last_spec g :
  is_last g = true <-> S (current_joke g) = length (gui_data g).
Proof. unfold is_last. rewrite Z.eqb_eq. lia. Qed.

Lemma show_joke_presents g j :
  gui_data g !! current_joke g = Some j ->
  exists g', show_joke g = inr g'
    /\ gui_data g' = gui_data g /\ current_joke g' = current_joke g
    /\ gui_file g' = gui_file g /\ dialogs g' = dialogs g
    /\ destroyed g' = destroyed g /\ presents g' j.
Proof.
  intros Hj. unfold show_joke. rewrite (subscript_Some _ _ _ Hj).
  eexists. split; [reflexivity|]. unfold presents. simpl. prop.
Qed.

Lemma add_one_rated r j : rated r j (add_one r j).
Proof. destruct r; unfold rated; simpl; prop. Qed.

(** C4: a rating of the current joke adds one to the chosen counter of
    that joke and changes no other joke, writes the whole catalogue to the
    file, then closes the window with a notice when the joke was the last,
    and otherwise moves to the next joke and presents it. *)
Theorem rate_joke_counts_saves_advances (r : rating) (g : gui) (j : joke) :
  gui_data g !! current_joke g = Some j ->
  exists g' j',
    rate_joke r g = inr g'
    /\ gui_data g' !! current_joke g = Some j' /\ rated r j j'
    /\ length (gui_data g') = length (gui_data g)
    /\ (forall i, i <> current_joke g -> gui_data g' !! i = gui_data g !! i)
    /\ gui_file g' = Text (json_dump (catalogue_value (gui_data g')))
    /\ advanced g g'
         (ShowInfo "Rating Recorded" "That was the last joke. Thanks for rating!")
         (ShowInfo "Rating Recorded"
            ("Thank you for rating!" ++ Py.nl ++ "The next joke will now appear.")).
Proof.
  intros Hj.
  pose proof (lookup_lt_Some _ _ _ Hj) as Hlt.
  unfold rate_joke. rewrite (subscript_Some _ _ _ Hj). cbn [mbind result_bind].
  set (d' := <[current_joke g := add_one r j]> (gui_data g)).
  assert (Hlen : length d' = length (gui_data g)) by apply length_insert.
  assert (Hcur : d' !! current_joke g = Some (add_one r j))
    by now apply list_lookup_insert_eq.
  assert (Hother : forall i, i <> current_joke g -> d' !! i = gui_data g !! i)
    by (intros i Hi; now apply list_lookup_insert_ne).
  unfold advanced.
  destruct (is_last _) eqn:Hlast.
  - apply is_last_spec in Hlast. simpl in Hlast. fold d' in Hlast.
    eexists _, (add_one r j). split; [reflexivity|]. simpl. fold d'.
    repeat split; auto using add_one_rated.
    + apply add_one_rated.
    + apply add_one_rated.
    + apply add_one_rated.
    + rewrite decide_True by lia. prop.
  - assert (Hnot : S (current_joke g) <> length (gui_data g)).
    { intros Heq. apply Bool.not_true_iff_false in Hlast. apply Hlast.
      apply is_last_spec. simpl. fold d'. lia. }
    destruct (lookup_lt_is_Some_2 d' (S (current_joke g))) as [next Hnext]; [lia|].
    match goal with |- context [show_joke ?x] =>
      destruct (show_joke_presents x next) as (g' & Hshow & Hd & Hc & Hf & Hdl & Hdes & Hp)
    end.
    { simpl. rewrite <- Hnext. f_equal. lia. }
    simpl in Hd, Hc, Hf, Hdl, Hdes.
    exists g', (add_one r j). split; [exact Hshow|].
    rewrite Hd, Hf. repeat split; auto; try apply add_one_rated.
    rewrite decide_False by exact Hnot.
    split; [exact Hdes|]. split; [lia|]. split; [exact Hdl|].
    exists next. split; [exact Hnext|exact Hp].
Qed.

(** C10: an abstention changes no joke and does not write the file; it
    closes the window with a notice when the joke was the last, and
    otherwise moves to the next joke and presents it. *)
Theorem abstain_joke_changes_nothing_advances (g : gui) (j : joke) :
  gui_data g !! current_joke g = Some j ->
  exists g',
    abstain_joke g = inr g'
    /\ gui_data g' = gui_data g
    /\ gui_file g' = gui_file g
    /\ advanced g g'
         (ShowInfo "End" "That was the last joke. No rating recorded.")
         (ShowInfo "Skipped"
            ("You abstained from rating." ++ Py.nl ++ "The next joke will now appear.")).
Proof.
  intros Hj.
  pose proof (lookup_lt_Some _ _ _ Hj) as Hlt.
  unfold abstain_joke, advanced.
  destruct (is_last g) eqn:Hlast.
  - apply is_last_spec in Hlast.
    eexists. split; [reflexivity|]. simpl.
    rewrite decide_True by exact Hlast. prop.
  - assert (Hnot : S (current_joke g) <> length (gui_data g)).
    { intros Heq. apply is_last_spec in Heq. congruence. }
    destruct (lookup_lt_is_Some_2 (gui_data g) (S (current_joke g))) as [next Hnext]; [lia|].
    match goal with |- context [show_joke ?x] =>
      destruct (show_joke_presents x next) as (g' & Hshow & Hd & Hc & Hf & Hdl & Hdes & Hp)
    end.
    { simpl. rewrite <- Hnext. f_equal. lia. }
    simpl in Hd, Hc, Hf, Hdl, Hdes.
    exists g'. split; [exact Hshow|].
    rewrite decide_False by exact Hnot.
    split; [exact Hd|]. split; [exact Hf|].
    split; [exact Hdes|]. split; [lia|]. split; [exact Hdl|].
    exists next. split; [now rewrite Hd|exact Hp].
Qed.

(** *** The admin program *)

Lemma emit_emit o1 o2 st : emit o2 (emit o1 st) = emit (o1 ++ o2)%list st.
Proof. unfold emit. simpl. now rewrite <- app_assoc. Qed.


Lemma max_from_first_max key rest : forall seen i best,
  first_max key seen i best ->
  exists i', first_max key (seen ++ rest)%list i' (max_from key best rest).
Proof.
  induction rest as [ | x rest IH]; intros seen i best (Hi & Hall & Hbefore).
  - exists i. rewrite app_nil_r. now repeat split.
  - replace (seen ++ x :: rest)%list with ((seen ++ [x]) ++ rest)%list
      by now rewrite <- app_assoc.
    simpl. pose proof (lookup_lt_Some _ _ _ Hi) as Hlt.
    destruct (Z.ltb_spec (key best) (key x)) as [Hless | Hge].
    + apply (IH (seen ++ [x])%list (length seen)). repeat split.
      * now rewrite lookup_app_r, Nat.sub_diag by lia.
      * intros k y Hk. apply lookup_app_Some in Hk as [Hk | [_ Hk]].
        -- specialize (Hall k y Hk). lia.
        -- apply list_lookup_singleton_Some in Hk as [_ <-]. lia.
      * intros k y Hlen Hk. rewrite lookup_app_l in Hk by exact Hlen.
        specialize (Hall k y Hk). lia.
    + apply (IH (seen ++ [x])%list i). repeat split.
      * now rewrite lookup_app_l.
      * intros k y Hk. apply lookup_app_Some in Hk as [Hk | [_ Hk]].
        -- now apply (Hall k).
        -- now apply list_lookup_singleton_Some in Hk as [_ <-].
      * intros k y Hki Hk. rewrite lookup_app_l in Hk by lia.
        now apply (Hbefore k).
Qed.

Lemma max_by_first_max key (d : list joke) :
  d <> [] -> exists i m, max_by key d = inr m /\ first_max key d i m.
Proof.
  destruct d as [ | x rest]; [congruence | intros _].
  destruct (max_from_first_max key rest [x] 0%nat x) as [i Hi].
  - repeat split.
    + intros k y Hk. now apply list_lookup_singleton_Some in Hk as [_ <-].
    + intros k y Hk. lia.
  - exists i, (max_from key x rest). now split.
Qed.

(** C6: on a non-empty catalogue the top command prints the joke with the
    most laughs and the joke with the most groans, each the first in the
    catalogue among those with that maximum; on an empty catalogue it
    prints that no jokes are saved and nothing else. *)
Theorem top_is_first_maximum (st : admin) :
  (data st = [] -> cmd_top st = (inr tt, emit [Line "No jokes saved."] st))
  /\ (data st <> [] ->
      exists il top_laughs ig top_groans,
        first_max laughs (data st) il top_laughs
        /\ first_max groans (data st) ig top_groans
        /\ cmd_top st
           = (inr tt,
              emit (map Line (top_lines "Top Laughs Joke:" top_laughs
                                ++ top_lines "Top Groans Joke:" top_groans)%list)
                   st)).
Proof.
  split.
  - intros Hd. unfold cmd_top. run. now rewrite Hd.
  - intros Hd.
    destruct (max_by_first_max laughs (data st) Hd) as (il & jl & Hl & Hfl).
    destruct (max_by_first_max groans (data st) Hd) as (ig & jg & Hg & Hfg).
    exists il, jl, ig, jg. split; [exact Hfl|]. split; [exact Hfg|].
    unfold cmd_top. run. destruct (data st) as [ | x rest] eqn:Hdata; [congruence|].
    rewrite Hl, Hg. now rewrite emit_emit.
Qed.

Lemma startswith_spec s : forall p,
  Py.startswith s p = true <-> exists post, s = p ++ post.
Proof.
  induction s as [ | c r IH]; intros [ | a p]; simpl.
  - split; [now exists "" | reflexivity].
  - split; [discriminate | intros [post Hpost]; discriminate].
  - split; [now exists (String c r) | reflexivity].
  - rewrite andb_true_iff, Ascii.eqb_eq, IH. split.
    + intros [-> [post ->]]. now exists post.
    + intros [post Hpost]. injection Hpost as -> ->. split; [reflexivity | now exists post].
Qed.

Lemma contains_spec sub : forall s,
  Py.contains s sub = true <-> substring_of sub s.
Proof.
  induction s as [ | c r IH]; cbn [Py.contains]; rewrite orb_true_iff, startswith_spec.
  - split.
    + intros [[post Hpost] | Hfalse]; [ | discriminate]. now exists "", post.
    + intros ([ | ] & post & Hpost); [left; now exists post | discriminate].
  - rewrite IH. split.
    + intros [[post Hpost] | (pre & post & Hr)].
      * now exists "", post.
      * exists (String c pre), post. simpl. now rewrite Hr.
    + intros ([ | c' pre] & post & Hs).
      * left. now exists post.
      * right. injection Hs as -> ->. now exists pre, post.
Qed.

Lemma In_enumerate1 {A} (l : list A) (i : Z) (x : A) :
  In (i, x) (enumerate1 l) <-> 1 <= i /\ l !! Z.to_nat (i - 1) = Some x.
Proof.
  rewrite <- list_elem_of_In. unfold enumerate1. rewrite elem_of_lookup_imap. split.
  - intros (k & y & Heq & Hk). injection Heq as -> ->. split; [lia|].
    now replace (Z.to_nat (Z.of_nat k + 1 - 1)) with k by lia.
  - intros [Hi Hx]. exists (Z.to_nat (i - 1)), x. split; [f_equal; lia | exact Hx].
Qed.

Lemma input_something_keeps prompt st r st1 :
  input_something prompt st = (r, st1) -> data st1 = data st /\ file st1 = file st.
Proof.
  unfold input_something.
  destruct (input_something_loop prompt (stdin st) []) as [r' [lines out]].
  intros [= _ <-]. now split.
Qed.

Lemma read_term_lower arg st term st1 :
  read_term arg st = (inr term, st1) ->
  (exists text, term = Py.lower text /\ forall a, given arg = Some a -> text = a)
  /\ data st1 = data st /\ file st1 = file st.
Proof.
  unfold read_term. destruct (given arg) as [a | ].
  - intros [= <- <-]. split; [ | now split]. exists a. split; [reflexivity|].
    now intros a' [= ->].
  - run. destruct (input_something _ st) as [[e | t] st'] eqn:Hin; [discriminate|].
    intros [= <- <-]. split; [ | now apply (input_something_keeps _ _ _ _ Hin)].
    exists t. split; [reflexivity | discriminate].
Qed.

(** C8: the search prints the joke at position [i] exactly when the
    lowercased term occurs in its lowercased setup or in its lowercased
    punchline; with no such joke in a non-empty catalogue it prints that
    no results were found, which is not what it prints on an empty
    catalogue. *)
Theorem search_matches_substring (arg : option string) (st st1 : admin) (term : string) :
  read_term arg st = (inr term, st1) ->
  let hits := search_hits term (data st) in
  (exists text, term = Py.lower text /\ forall a, given arg = Some a -> text = a)
  /\ (forall i j,
        In (i, j) hits <->
        1 <= i /\ data st !! Z.to_nat (i - 1) = Some j
        /\ (substring_of term (Py.lower (setup j))
            \/ substring_of term (Py.lower (punchline j))))
  /\ (data st = [] -> cmd_search arg st = (inr tt, emit [Line "No jokes saved."] st))
  /\ (data st <> [] -> hits = [] ->
        cmd_search arg st
        = (inr tt, emit [Line "Search results:"; Line "No results found."] st1))
  /\ (data st <> [] -> hits <> [] ->
        cmd_search arg st
        = (inr tt, emit (Line "Search results:" :: map Line (map listing hits)) st1))
  /\ Line "No results found." <> Line "No jokes saved.".
Proof.
  intros Hread hits.
  split; [exact (proj1 (read_term_lower _ _ _ _ Hread))|].
  split.
  { intros i j. unfold hits, search_hits. rewrite filter_In, In_enumerate1. simpl.
    unfold matches. rewrite orb_true_iff, !contains_spec.
    prop. }
  split.
  { intros Hd. unfold cmd_search. run. now rewrite Hd. }
  assert (Hrun : data st <> [] ->
    cmd_search arg st
    = (inr tt,
       emit (Line "Search results:" :: map Line (map listing hits)
             ++ match hits with [] => [Line "No results found."] | _ => [] end)%list st1)).
  { intros Hd. unfold cmd_search. run.
    destruct (data st) as [ | x rest] eqn:Hdata; [congruence|].
    rewrite Hread. subst hits.
    destruct (search_hits term (x :: rest)); simpl; rewrite !emit_emit; simpl;
      rewrite ?app_nil_r; reflexivity. }
  split; [ | split; [ | discriminate]].
  - intros Hd Hhits. rewrite (Hrun Hd), Hhits. reflexivity.
  - intros Hd Hhits. rewrite (Hrun Hd). destruct hits; [congruence|].
    now rewrite app_nil_r.
Qed.

Lemma input_int_keeps prompt st r st1 :
  input_int prompt st = (r, st1) -> data st1 = data st /\ file st1 = file st.
Proof.
  unfold input_int.
  destruct (input_int_loop prompt (stdin st) []) as [r' [lines out]].
  intros [= _ <-]. now split.
Qed.

Lemma read_index_keeps arg prompt st r st1 :
  read_index arg prompt st = (r, st1) -> data st1 = data st /\ file st1 = file st.
Proof.
  assert (Hprompt : forall r st1,
    (n ← input_int prompt; mret (n - 1)) st = (r, st1) ->
    data st1 = data st /\ file st1 = file st).
  { intros r0 st0. run. destruct (input_int prompt st) as [[e | n] st'] eqn:Hin;
      intros [= _ <-]; exact (input_int_keeps _ _ _ _ Hin). }
  unfold read_index. destruct (given arg) as [a | ]; [ | apply Hprompt].
  destruct (Py.isdigit a); [ | apply Hprompt].
  destruct (Py.int a); intros [= _ <-]; now split.
Qed.

Lemma in_range_spec index (d : list joke) :
  in_range index d = true <-> 0 <= index < Z.of_nat (length d).
Proof. unfold in_range. rewrite andb_true_iff, Z.leb_le, Z.ltb_lt. prop. Qed.

Lemma all_nearest_100 : all_nearest 100 = true.
Proof. vm_compute. reflexivity. Qed.

Lemma all_nearest_spec bound count total :
  all_nearest bound = true ->
  0 <= count <= total -> 1 <= total <= Z.of_nat bound ->
  nearest_tenth count total = true.
Proof.
  unfold all_nearest. rewrite forallb_forall. intros Hall Hcount Htotal.
  specialize (Hall (Z.to_nat total)). rewrite in_seq, forallb_forall in Hall.
  specialize (Hall ltac:(lia) (Z.to_nat count)). rewrite in_seq in Hall.
  specialize (Hall ltac:(lia)). now rewrite !Z2Nat.id in Hall by lia.
Qed.

Lemma nearest_tenth_to_100 count total :
  0 <= count <= total -> 1 <= total <= 100 ->
  exists t,
    Py.format_1f (percentage count total) = Py.str (t / 10) ++ "." ++ Py.str (t mod 10)
    /\ 2 * Z.abs (t * total - 1000 * count) <= total.
Proof.
  intros Hcount Htotal.
  pose proof (all_nearest_spec 100 count total all_nearest_100 Hcount
                ltac:(simpl; lia)) as Hall.
  unfold nearest_tenth in Hall.
  destruct (tenths (percentage count total)) as [t | ]; [ | discriminate].
  apply andb_true_iff in Hall as [Htext Hnear]. exists t.
  split; [now apply String.eqb_eq | now apply Z.leb_le].
Qed.

(** C9: for a joke at a valid position the view command prints the joke
    and then, when [laughs + groans] is 0, that the joke has not been
    rated, and otherwise the line with each counter and its percentage,
    [count / (laughs + groans) * 100] to one decimal place; for 3 laughs
    and 1 groan the line reads 75.0% and 25.0%. The quotient is the one
    of Python on integers of any size, rounded once: for [2^63] laughs and
    1 groan the line reads 100.0% and 0.0%. Up to 100 ratings each
    percentage printed is at most 0.05 away from the exact
    [count / (laughs + groans) * 100]. *)
Theorem view_reports_rating (arg : option string) (st st1 : admin) (k : Z) (j : joke) :
  read_index arg "Joke number to view: " st = (inr (k - 1), st1) ->
  1 <= k -> data st !! Z.to_nat (k - 1) = Some j ->
  0 <= laughs j -> 0 <= groans j ->
  let l := laughs j in
  let g := groans j in
  exists report,
    cmd_view arg st
    = (inr tt, emit (Line (Py.nl ++ setup j ++ Py.nl ++ punchline j) :: map Line report) st1)
    /\ (l + g = 0 -> report = [unrated])
    /\ (l + g <> 0 ->
        exists extra,
          report
          = ("Laughs: " ++ Py.str l ++ " ("
               ++ Py.format_1f (Py.truediv l (l + g) * 100)%float ++ "%), Groans: "
               ++ Py.str g ++ " ("
               ++ Py.format_1f (Py.truediv g (l + g) * 100)%float ++ "%)") :: extra)
    /\ stats_line 3 1 = "Laughs: 3 (75.0%), Groans: 1 (25.0%)"
    /\ stats_line (2 ^ 63) 1 = "Laughs: 9223372036854775808 (100.0%), Groans: 1 (0.0%)"
    /\ stats_line 556532243204551053 540083014341362351
       = "Laughs: 556532243204551053 (50.7%), Groans: 540083014341362351 (49.2%)"
    /\ (l + g <> 0 -> l + g <= 100 ->
        exists tl tg extra,
          report
          = ("Laughs: " ++ Py.str l ++ " ("
               ++ (Py.str (tl / 10) ++ "." ++ Py.str (tl mod 10)) ++ "%), Groans: "
               ++ Py.str g ++ " ("
               ++ (Py.str (tg / 10) ++ "." ++ Py.str (tg mod 10)) ++ "%)") :: extra
          /\ 2 * Z.abs (tl * (l + g) - 1000 * l) <= l + g
          /\ 2 * Z.abs (tg * (l + g) - 1000 * g) <= l + g).
Proof.
  intros Hread Hk Hj Hl Hg l g.
  pose proof (lookup_lt_Some _ _ _ Hj) as Hlt.
  exists (rating_report l g).
  split; [ | split; [ | split; [ | split; [ | split; [ | split]]]]].
  - unfold cmd_view. run.
    destruct (data st) as [ | x rest] eqn:Hdata; [simpl in Hlt; lia|].
    rewrite Hread.
    destruct (in_range_spec (k - 1) (x :: rest)) as [_ Hin].
    rewrite Hin by lia. now rewrite (subscript_Some _ _ _ Hj).
  - intros Hsum. unfold rating_report.
    replace l with 0 by (unfold l, g in *; lia).
    replace g with 0 by (unfold l, g in *; lia). reflexivity.
  - intros Hsum. unfold rating_report.
    destruct (andb_false_iff (l =? 0) (g =? 0)) as [_ Hrated].
    rewrite Hrated.
    + eexists. unfold stats_line, percentage.
      destruct (Z.eqb_spec (l + g) 0); [contradiction | reflexivity].
    + destruct (Z.eqb_spec l 0); [right; apply Z.eqb_neq; lia | now left].
  - vm_compute. reflexivity.
  - vm_compute. reflexivity.
  - vm_compute. reflexivity.
  - intros Hsum Hsmall. fold l in Hl. fold g in Hg.
    destruct (nearest_tenth_to_100 l (l + g)) as (tl & Htl & Hnl); [lia | lia|].
    destruct (nearest_tenth_to_100 g (l + g)) as (tg & Htg & Hng); [lia | lia|].
    exists tl, tg, (option_list (commentary l g)).
    split; [ | split; [exact Hnl | exact Hng]].
    unfold rating_report.
    destruct (andb_false_iff (l =? 0) (g =? 0)) as [_ Hrated].
    rewrite Hrated.
    + unfold stats_line. now rewrite Htl, Htg.
    + destruct (Z.eqb_spec l 0); [right; apply Z.eqb_neq; lia | now left].
Qed.

(** C7: deleting position [k] of [n] jokes leaves [n - 1] jokes, those
    before [k] in place and every later one moved down by one, and writes
    the new catalogue to the file; a position out of range is reported
    as an invalid index and neither the catalogue nor the file changes. *)
Theorem delete_shifts_and_saves (arg : option string) (st st1 : admin) (k : Z) :
  data st <> [] ->
  read_index arg "Joke number to delete: " st = (inr (k - 1), st1) ->
  let n := length (data st) in
  (1 <= k <= Z.of_nat n ->
     exists st',
       cmd_delete arg st = (inr tt, st')
       /\ length (data st') = (n - 1)%nat
       /\ (forall i, (i < Z.to_nat (k - 1))%nat -> data st' !! i = data st !! i)
       /\ (forall i, (Z.to_nat (k - 1) <= i)%nat -> data st' !! i = data st !! S i)
       /\ file st' = Text (json_dump (catalogue_value (data st')))
       /\ stdout st' = (stdout st1 ++ [Line "Joke deleted."])%list)
  /\ (~ 1 <= k <= Z.of_nat n ->
        exists st',
          cmd_delete arg st = (inr tt, st')
          /\ data st' = data st /\ file st' = file st
          /\ stdout st' = (stdout st1 ++ [Line "Invalid index number."])%list).
Proof.
  intros Hd Hread n.
  destruct (read_index_keeps _ _ _ _ _ Hread) as [Hdata Hfile].
  split; intros Hk.
  - set (d' := delete (Z.to_nat (k - 1)) (data st)).
    exists (emit [Line "Joke deleted."] (set_file (write_json d') (set_data d' st1))).
    subst d'. split.
    + unfold cmd_delete. run.
      destruct (data st) as [ | x rest] eqn:Hst; [congruence|].
      rewrite Hread.
      destruct (in_range_spec (k - 1) (x :: rest)) as [_ Hin].
      rewrite Hin by (unfold n in Hk; lia). reflexivity.
    + simpl. split; [ | split; [ | split; [ | split]]]; try reflexivity.
      * rewrite length_delete; [reflexivity|].
        apply lookup_lt_is_Some_2. unfold n in Hk. lia.
      * intros i Hi. now apply list_lookup_delete_lt.
      * intros i Hi. now apply list_lookup_delete_ge.
  - exists (emit [Line "Invalid index number."] st1). split.
    + unfold cmd_delete. run.
      destruct (data st) as [ | x rest] eqn:Hst; [congruence|].
      rewrite Hread.
      destruct (in_range (k - 1) (x :: rest)) eqn:Hin; [ | reflexivity].
      apply in_range_spec in Hin. unfold n in Hk. lia.
    + simpl. now rewrite Hdata, Hfile.
Qed.

(** An input line whose first word is no command: the loop prints that
    the choice is invalid and asks again. *)
Lemma unknown_choice_is_reported (st : admin) (line first : string) (rest more : list string) :
  stdin st = line :: rest ->
  Py.split1 (Py.strip line) = first :: more ->
  ~ In (Py.lower first) commands ->
  menu_step st
  = (inr Next, set_stdin rest (emit [Line menu; Ask "> "; Line invalid_choice] st)).
Proof.
  intros Hin Hparts Hunknown. unfold menu_step, input. run.
  rewrite Hin, Hparts. cbn [subscript lookup list_lookup].
  repeat match goal with
  | |- context [String.eqb (Py.lower first) ?c] =>
      destruct (String.eqb_spec (Py.lower first) c) as [Heq | _];
      [exfalso; apply Hunknown; rewrite Heq; unfold commands; simpl; prop | ]
  end.
  unfold set_stdin, emit. simpl. now rewrite <- !app_assoc.
Qed.

(** C1 fails on the code: a line that is empty or holds only whitespace
    splits into no word, the subscript [parts[0]] raises [IndexError], and
    nothing catches it. *)
Theorem blank_line_raises_IndexError (st : admin) (line : string) (rest : list string) :
  stdin st = line :: rest ->
  Py.strip line = "" ->
  menu_step st
  = (inl Py.IndexError, set_stdin rest (emit [Line menu; Ask "> "] st)).
Proof.
  intros Hin Hblank. unfold menu_step, input. run.
  rewrite Hin, Hblank. simpl.
  unfold set_stdin, emit. simpl. now rewrite <- app_assoc.
Qed.

(** *** The file *)

Lemma joke_of_joke_value j : joke_of_value (joke_value j) = Some j.
Proof. now destruct j. Qed.

Lemma catalogue_of_values d : catalogue_of (map joke_value d) = Some d.
Proof.
  induction d as [ | j d IH]; [reflexivity|].
  cbn [map catalogue_of]. now rewrite joke_of_joke_value, IH.
Qed.

(** C3: after [save_data] the load of the admin program returns the
    saved list, joke for joke: it starts on a catalogue equal to the one
    saved, with the same length, order and fields. *)
Theorem save_then_load_is_identity (d : list joke) (st : admin) (lines : list string) :
  codec_round_trips ->
  let f := file (snd (save_data d st)) in
  admin_load f = inr (map joke_value d)
  /\ catalogue_of (map joke_value d) = Some d
  /\ admin_start f lines = inr (Some (Admin d f lines [Line welcome])).
Proof.
  intros Hcodec f.
  assert (Hload : admin_load f = inr (map joke_value d)).
  { unfold f, admin_load, load_json. simpl. unfold write_json. now rewrite Hcodec. }
  split; [exact Hload|]. split; [apply catalogue_of_values|].
  unfold admin_start. now rewrite Hload, catalogue_of_values.
Qed.

(** *** Other commands *)

Lemma truthy_nonempty s : s <> "" -> Py.truthy s = true.
Proof. destruct s; [congruence | reflexivity]. Qed.

(** The add command, given a setup and a punchline that are not blank,
    appends the joke with both counters at 0 and writes the new catalogue
    to the file. *)
Theorem add_appends_and_saves (st : admin) (s p : string) (rest : list string) :
  stdin st = s :: p :: rest ->
  Py.strip s <> "" -> Py.strip p <> "" ->
  exists st',
    cmd_add st = (inr tt, st')
    /\ data st' = (data st ++ [Joke (Py.strip s) (Py.strip p) 0 0])%list
    /\ file st' = Text (json_dump (catalogue_value (data st')))
    /\ stdin st' = rest
    /\ stdout st'
       = (stdout st ++ [Ask "Enter setup of joke: "; Ask "Enter punchline of joke: ";
                        Line "Joke added."])%list.
Proof.
  intros Hin Hs Hp. eexists. split.
  - unfold cmd_add, input_something. run. rewrite Hin. cbn [input_something_loop].
    rewrite (truthy_nonempty _ Hs). simpl. rewrite (truthy_nonempty _ Hp). reflexivity.
  - simpl. rewrite <- !app_assoc. repeat split.
Qed.

(** The list command prints the jokes in order, numbered from 1. *)
Theorem list_numbers_from_one (st : admin) :
  (data st = [] -> cmd_list st = (inr tt, emit [Line "No jokes saved."] st))
  /\ (data st <> [] ->
      cmd_list st
      = (inr tt,
         emit (Line "List of jokes:" :: map Line (map listing (enumerate1 (data st)))) st))
  /\ (forall i j, In (i, j) (enumerate1 (data st)) <->
                  1 <= i /\ data st !! Z.to_nat (i - 1) = Some j).
Proof.
  split; [ | split].
  - intros Hd. unfold cmd_list. run. now rewrite Hd.
  - intros Hd. unfold cmd_list. run.
    destruct (data st) as [ | x rest] eqn:Hdata; [congruence|].
    now rewrite emit_emit.
  - intros i j. apply In_enumerate1.
Qed.

(** The letter [q], in either case, ends the loop after the farewell. *)
Theorem quit_ends_the_loop (st : admin) (line : string) (rest more : list string)
    (first : string) :
  stdin st = line :: rest ->
  Py.split1 (Py.strip line) = first :: more ->
  Py.lower first = "q" ->
  menu_step st
  = (inr Break, set_stdin rest (emit [Line menu; Ask "> "; Line "Goodbye!"] st)).
Proof.
  intros Hin Hparts Hq. unfold menu_step, input. run.
  rewrite Hin, Hparts. cbn [subscript lookup list_lookup]. rewrite Hq. simpl.
  unfold set_stdin, emit. simpl. now rewrite <- !app_assoc.
Qed.

(** *** The two input helpers

    [int] is the one of the runtime above: it reads a numeral of any
    length, without the bound an interpreter may set on the number of
    digits. *)

Lemma input_int_loop_valid prompt bad : forall l rest v out,
  Forall rejected bad -> Py.int l = Some v -> 1 <= v ->
  input_int_loop prompt (bad ++ l :: rest) out
  = (inr v, (rest, out ++ refusals prompt complaint bad ++ [Ask prompt]))%list.
Proof.
  induction bad as [ | b bad IH]; intros l rest v out Hbad Hl Hv.
  - simpl. rewrite Hl. destruct (Z.leb_spec 1 v); [reflexivity | lia].
  - apply Forall_cons in Hbad as [Hb Hbad]. unfold rejected in Hb.
    cbn [app input_int_loop refusals flat_map]. unfold complaint at 1.
    destruct (Py.int b) as [n | ].
    + destruct (Z.leb_spec 1 n); [lia|].
      rewrite (IH l rest v _ Hbad Hl Hv). fold (refusals prompt complaint bad).
      simpl. now rewrite <- !app_assoc.
    + rewrite (IH l rest v _ Hbad Hl Hv). fold (refusals prompt complaint bad).
      simpl. now rewrite <- !app_assoc.
Qed.

Lemma input_int_loop_eof prompt lines : forall out,
  Forall rejected lines ->
  input_int_loop prompt lines out
  = (inl Py.EOFError, ([], out ++ refusals prompt complaint lines ++ [Ask prompt]))%list.
Proof.
  induction lines as [ | b lines IH]; intros out Hbad; [reflexivity|].
  apply Forall_cons in Hbad as [Hb Hbad]. unfold rejected in Hb.
  cbn [input_int_loop refusals flat_map]. unfold complaint at 1.
  destruct (Py.int b) as [n | ].
  - destruct (Z.leb_spec 1 n); [lia|].
    rewrite (IH _ Hbad). fold (refusals prompt complaint lines).
    simpl. now rewrite <- !app_assoc.
  - rewrite (IH _ Hbad). fold (refusals prompt complaint lines).
    simpl. now rewrite <- !app_assoc.
Qed.

(** [input_int] returns the first line that [int] reads as a number from
    1 on, after one complaint for each line before it, and leaves the
    lines after it; when no line qualifies it raises [EOFError] at the end
    of the input. It touches neither the catalogue nor the file. *)
Theorem input_int_returns_first_valid (prompt : string) (st : admin) :
  (forall bad l rest v,
     stdin st = (bad ++ l :: rest)%list ->
     Forall rejected bad -> Py.int l = Some v -> 1 <= v ->
     input_int prompt st
     = (inr v,
        set_stdin rest (emit (refusals prompt complaint bad ++ [Ask prompt])%list st)))
  /\ (Forall rejected (stdin st) ->
      input_int prompt st
      = (inl Py.EOFError,
         set_stdin [] (emit (refusals prompt complaint (stdin st) ++ [Ask prompt])%list st))).
Proof.
  split.
  - intros bad l rest v Hin Hbad Hl Hv. unfold input_int.
    now rewrite Hin, (input_int_loop_valid prompt bad l rest v [] Hbad Hl Hv).
  - intros Hbad. unfold input_int.
    now rewrite (input_int_loop_eof prompt (stdin st) [] Hbad).
Qed.

Lemma input_something_loop_valid prompt bad : forall l rest out,
  Forall blank bad -> Py.truthy (Py.strip l) = true ->
  input_something_loop prompt (bad ++ l :: rest) out
  = (inr (Py.strip l),
     (rest, out ++ refusals prompt (fun _ => "Input cannot be blank. Please try again.") bad
              ++ [Ask prompt]))%list.
Proof.
  induction bad as [ | b bad IH]; intros l rest out Hbad Hl.
  - simpl. now rewrite Hl.
  - apply Forall_cons in Hbad as [Hb Hbad]. unfold blank in Hb.
    cbn [app input_something_loop refusals flat_map]. rewrite Hb.
    rewrite (IH l rest _ Hbad Hl).
    fold (refusals prompt (fun _ => "Input cannot be blank. Please try again.") bad).
    simpl. now rewrite <- !app_assoc.
Qed.

Lemma input_something_loop_eof prompt lines : forall out,
  Forall blank lines ->
  input_something_loop prompt lines out
  = (inl Py.EOFError,
     ([], out ++ refusals prompt (fun _ => "Input cannot be blank. Please try again.") lines
            ++ [Ask prompt]))%list.
Proof.
  induction lines as [ | b lines IH]; intros out Hbad; [reflexivity|].
  apply Forall_cons in Hbad as [Hb Hbad]. unfold blank in Hb.
  cbn [input_something_loop refusals flat_map]. rewrite Hb, (IH _ Hbad).
  fold (refusals prompt (fun _ => "Input cannot be blank. Please try again.") lines).
  simpl. now rewrite <- !app_assoc.
Qed.

(** [input_something] returns the first line that is not blank, stripped
    and therefore not empty, after one complaint for each blank line
    before it; with only blank lines it raises [EOFError] at the end of
    the input. *)
Theorem input_something_returns_first_text (prompt : string) (st : admin) :
  let sorry := fun _ : string => "Input cannot be blank. Please try again." in
  (forall bad l rest,
     stdin st = (bad ++ l :: rest)%list ->
     Forall blank bad -> Py.strip l <> "" ->
     input_something prompt st
     = (inr (Py.strip l),
        set_stdin rest (emit (refusals prompt sorry bad ++ [Ask prompt])%list st)))
  /\ (Forall blank (stdin st) ->
      input_something prompt st
      = (inl Py.EOFError,
         set_stdin [] (emit (refusals prompt sorry (stdin st) ++ [Ask prompt])%list st))).
Proof.
  intros sorry. split.
  - intros bad l rest Hin Hbad Hl. unfold input_something.
    now rewrite Hin, (input_something_loop_valid prompt bad l rest []
                        Hbad (truthy_nonempty _ Hl)).
  - intros Hbad. unfold input_something.
    now rewrite (input_something_loop_eof prompt (stdin st) [] Hbad).
Qed.

Lemma input_int_loop_rest prompt lines : forall out r rest out',
  input_int_loop prompt lines out = (r, (rest, out')) ->
  (length rest <= length lines)%nat
  /\ (forall e, r = inl e -> e = Py.EOFError /\ rest = []).
Proof.
  induction lines as [ | l lines IH]; intros out r rest out'.
  - intros [= <- <- _]. split; [reflexivity|]. now intros e [= <-].
  - cbn [input_int_loop]. destruct (Py.int l) as [n | ].
    + destruct (1 <=? n).
      * intros [= <- <- _]. split; [simpl; lia | discriminate].
      * intros Hrun. destruct (IH _ _ _ _ Hrun) as [Hlen Hexn].
        split; [simpl; lia | exact Hexn].
    + intros Hrun. destruct (IH _ _ _ _ Hrun) as [Hlen Hexn].
      split; [simpl; lia | exact Hexn].
Qed.

Lemma input_something_loop_rest prompt lines : forall out r rest out',
  input_something_loop prompt lines out = (r, (rest, out')) ->
  (length rest <= length lines)%nat
  /\ (forall e, r = inl e -> e = Py.EOFError /\ rest = [])
  /\ (forall text, r = inr text -> text <> "").
Proof.
  induction lines as [ | l lines IH]; intros out r rest out'.
  - intros [= <- <- _]. split; [reflexivity|]. split; [ | discriminate].
    now intros e [= <-].
  - cbn [input_something_loop]. destruct (Py.truthy (Py.strip l)) eqn:Htext.
    + intros [= <- <- _]. split; [simpl; lia|]. split; [discriminate|].
      intros text [= <-]. now destruct (Py.strip l).
    + intros Hrun. destruct (IH _ _ _ _ Hrun) as (Hlen & Hexn & Htxt).
      split; [simpl; lia|]. now split.
Qed.

(** *** Commands that only read *)

Lemma reads_only_ret {A} (a : A) : reads_only (mret a).
Proof. intros st r st' [= _ <-]. repeat split; reflexivity. Qed.

Lemma reads_only_bind {A B} (m : cli A) (k : A -> cli B) :
  reads_only m -> (forall a, reads_only (k a)) -> reads_only (m ≫= k).
Proof.
  intros Hm Hk st r st'. unfold mbind, cli_bind.
  destruct (m st) as [[e | a] st1] eqn:Hrun;
    destruct (Hm _ _ _ Hrun) as (Hd & Hf & Hl).
  - intros [= _ <-]. repeat split; assumption.
  - intros Hrest. destruct (Hk a _ _ _ Hrest) as (Hd' & Hf' & Hl').
    split; [congruence|]. split; [congruence | lia].
Qed.

Lemma reads_only_get_data : reads_only get_data.
Proof. intros st r st' [= _ <-]. repeat split; reflexivity. Qed.

Lemma reads_only_lift {A} (r : Py.exn + A) : reads_only (lift r).
Proof. intros st r' st' [= _ <-]. repeat split; reflexivity. Qed.

Lemma reads_only_raise {A} (e : Py.exn) : reads_only (@raise A e).
Proof. intros st r' st' [= _ <-]. repeat split; reflexivity. Qed.

Lemma reads_only_print text : reads_only (print text).
Proof. intros st r st' [= _ <-]. repeat split; reflexivity. Qed.

Lemma reads_only_print_all texts : reads_only (print_all texts).
Proof. intros st r st' [= _ <-]. repeat split; reflexivity. Qed.

Lemma reads_only_input prompt : reads_only (input prompt).
Proof.
  intros st r st'. unfold input. destruct (stdin st) as [ | l rest] eqn:Hin;
    intros [= _ <-]; simpl; rewrite ?Hin; simpl; repeat split; lia.
Qed.

Lemma reads_only_input_int prompt : reads_only (input_int prompt).
Proof.
  intros st r st'. unfold input_int.
  destruct (input_int_loop prompt (stdin st) []) as [r' [lines out]] eqn:Hloop.
  intros [= _ <-]. simpl. repeat split.
  exact (proj1 (input_int_loop_rest _ _ _ _ _ _ Hloop)).
Qed.

Lemma reads_only_input_something prompt : reads_only (input_something prompt).
Proof.
  intros st r st'. unfold input_something.
  destruct (input_something_loop prompt (stdin st) []) as [r' [lines out]] eqn:Hloop.
  intros [= _ <-]. simpl. repeat split.
  exact (proj1 (input_something_loop_rest _ _ _ _ _ _ Hloop)).
Qed.

Create HintDb reads.

#[local] Hint Resolve reads_only_ret reads_only_get_data reads_only_lift
  reads_only_raise reads_only_print reads_only_print_all reads_only_input
  reads_only_input_int reads_only_input_something : reads.

(** Splitting a command into its steps. *)
Ltac steps lemma :=
  repeat first
    [ apply lemma; [ | intros ? ]
    | match goal with
      | |- context [match ?x with _ => _ end] => destruct x
      end
    | solve [auto with reads] ].

Lemma reads_only_read_term arg : reads_only (read_term arg).
Proof. unfold read_term. steps @reads_only_bind. Qed.

Lemma reads_only_read_index arg prompt : reads_only (read_index arg prompt).
Proof. unfold read_index. steps @reads_only_bind. Qed.

#[local] Hint Resolve reads_only_read_term reads_only_read_index : reads.

Lemma reads_only_cmd_list : reads_only cmd_list.
Proof. unfold cmd_list. steps @reads_only_bind. Qed.

Lemma reads_only_cmd_search arg : reads_only (cmd_search arg).
Proof. unfold cmd_search. steps @reads_only_bind. Qed.

Lemma reads_only_cmd_view arg : reads_only (cmd_view arg).
Proof. unfold cmd_view. steps @reads_only_bind. Qed.

Lemma reads_only_cmd_top : reads_only cmd_top.
Proof. unfold cmd_top. steps @reads_only_bind. Qed.

(** The list, search, view and top commands leave the catalogue and the
    file as they are and give no line back to the input, whatever they are
    given and whether they return or raise. *)
Theorem browsing_changes_nothing :
  reads_only cmd_list
  /\ (forall arg, reads_only (cmd_search arg))
  /\ (forall arg, reads_only (cmd_view arg))
  /\ reads_only cmd_top.
Proof.
  split; [exact reads_only_cmd_list|].
  split; [exact reads_only_cmd_search|].
  split; [exact reads_only_cmd_view | exact reads_only_cmd_top].
Qed.

(** *** What a turn of the menu changes *)

Lemma reads_only_change {A} (m : cli A) st r st' :
  reads_only m -> m st = (r, st') ->
  change st st' /\ (length (stdin st') <= length (stdin st))%nat.
Proof.
  intros Hm Hrun. destruct (Hm _ _ _ Hrun) as (Hd & Hf & Hl).
  split; [now apply unchanged | exact Hl].
Qed.

Lemma input_something_text prompt st text st1 :
  input_something prompt st = (inr text, st1) -> text <> "".
Proof.
  unfold input_something.
  destruct (input_something_loop prompt (stdin st) []) as [r' [lines out]] eqn:Hloop.
  intros [= -> _].
  exact (proj2 (proj2 (input_something_loop_rest _ _ _ _ _ _ Hloop)) text eq_refl).
Qed.

Lemma cmd_add_change st r st' :
  cmd_add st = (r, st') ->
  change st st' /\ (length (stdin st') <= length (stdin st))%nat.
Proof.
  unfold cmd_add. run.
  destruct (input_something "Enter setup of joke: " st) as [[e | s] st1] eqn:Hs;
    destruct (reads_only_input_something _ _ _ _ Hs) as (Hd1 & Hf1 & Hl1).
  { intros [= _ <-]. split; [now apply unchanged | exact Hl1]. }
  destruct (input_something "Enter punchline of joke: " st1) as [[e | p] st2] eqn:Hp;
    destruct (reads_only_input_something _ _ _ _ Hp) as (Hd2 & Hf2 & Hl2).
  { intros [= _ <-]. split; [apply unchanged; congruence | lia]. }
  intros [= _ <-]. simpl. split; [ | lia].
  apply (added _ _ s p);
    [exact (input_something_text _ _ _ _ Hs) | exact (input_something_text _ _ _ _ Hp)
    | simpl; congruence | reflexivity].
Qed.

Lemma cmd_delete_change arg st r st' :
  cmd_delete arg st = (r, st') ->
  change st st' /\ (length (stdin st') <= length (stdin st))%nat.
Proof.
  unfold cmd_delete. run.
  destruct (data st) as [ | x rest] eqn:Hdata.
  { intros [= _ <-]. simpl. split; [now apply unchanged | lia]. }
  destruct (read_index arg "Joke number to delete: " st) as [[e | index] st1] eqn:Hread;
    destruct (reads_only_read_index _ _ _ _ _ Hread) as (Hd1 & Hf1 & Hl1).
  { intros [= _ <-]. split; [apply unchanged; congruence | exact Hl1]. }
  destruct (in_range index (x :: rest)) eqn:Hin.
  - intros [= _ <-]. simpl. split; [ | exact Hl1].
    apply in_range_spec in Hin.
    destruct (lookup_lt_is_Some_2 (x :: rest) (Z.to_nat index)) as [j Hj]; [lia|].
    apply (removed _ _ (Z.to_nat index) j); simpl; rewrite ?Hdata; auto.
  - intros [= _ <-]. simpl. split; [apply unchanged; simpl; congruence | exact Hl1].
Qed.

Lemma menu_step_change st r st' :
  menu_step st = (r, st') ->
  change st st'
  /\ (length (stdin st') <= length (stdin st))%nat
  /\ (forall c, r = inr c -> (length (stdin st') < length (stdin st))%nat).
Proof.
  unfold menu_step, input. run.
  destruct (stdin st) as [ | line rest] eqn:Hin.
  { intros [= <- <-]. simpl. rewrite Hin.
    split; [now apply unchanged|]. split; [reflexivity | discriminate]. }
  set (st0 := set_stdin rest (emit [Ask "> "] (emit [Line menu] st))).
  assert (Hst0 : data st0 = data st /\ file st0 = file st
                 /\ S (length (stdin st0)) = length (line :: rest))
    by (repeat split; reflexivity).
  destruct Hst0 as (Hd0 & Hf0 & Hl0).
  assert (Hstep : forall (m : cli unit) (c : control),
    (forall r1 st1, m st0 = (r1, st1) ->
       change st0 st1 /\ (length (stdin st1) <= length (stdin st0))%nat) ->
    match m st0 with
    | (inr _, st1) => (inr c, st1)
    | (inl e, st1) => (inl e, st1)
    end = (r, st') ->
    change st st'
    /\ (length (stdin st') <= length (line :: rest))%nat
    /\ (forall c, r = inr c -> (length (stdin st') < length (line :: rest))%nat)).
  { intros m c Hm. destruct (m st0) as [[e | []] st1] eqn:Hrun;
      destruct (Hm _ _ eq_refl) as [Hch Hl]; intros [= <- <-];
      (split; [ | split; [lia | intros; lia]]);
      (destruct Hch as [Hd Hf | s p Hs Hp Hd Hf | i j Hj Hd Hf];
       [apply unchanged; congruence
       | apply (added _ _ s p); congruence
       | apply (removed _ _ i j); congruence]). }
  destruct (subscript (Py.split1 (Py.strip line)) 0) as [e | first].
  { intros [= <- <-]. split; [now apply unchanged|].
    split; [simpl; lia | discriminate]. }
  repeat match goal with
  | |- context [if String.eqb ?a ?b then _ else _] => destruct (String.eqb a b)
  end.
  - apply Hstep. intros r1 st1. apply cmd_add_change.
  - apply Hstep. intros r1 st1. apply reads_only_change, reads_only_cmd_list.
  - apply Hstep. intros r1 st1. apply reads_only_change, reads_only_cmd_search.
  - apply Hstep. intros r1 st1. apply reads_only_change, reads_only_cmd_view.
  - apply Hstep. intros r1 st1. apply cmd_delete_change.
  - apply Hstep. intros r1 st1. apply reads_only_change, reads_only_cmd_top.
  - intros [= <- <-]. split; [now apply unchanged|].
    split; [simpl; lia | intros; simpl; lia].
  - intros [= <- <-]. split; [now apply unchanged|].
    split; [simpl; lia | intros; simpl; lia].
Qed.

(** One turn of the menu loop, however it ends, leaves the catalogue and
    the file as they were, or appends one joke with texts that are not
    empty and both counters at 0, or removes one joke; after a change the
    file holds the new catalogue. A turn gives no line back to the input,
    and a turn that returns has taken at least one. *)
Theorem menu_step_changes (st st' : admin) (r : Py.exn + control) :
  menu_step st = (r, st') ->
  change st st'
  /\ (length (stdin st') <= length (stdin st))%nat
  /\ (forall c, r = inr c -> (length (stdin st') < length (stdin st))%nat).
Proof. apply menu_step_change. Qed.

(** *** What a turn of the menu can raise *)

Lemma fails_with_ret {A} other (a : A) : fails_with other (mret a).
Proof. intros st e st' [=]. Qed.


Lemma fails_with_get_data other : fails_with other get_data.
Proof. intros st e st' [=]. Qed.

Lemma fails_with_print other text : fails_with other (print text).
Proof. intros st e st' [=]. Qed.

Lemma fails_with_print_all other texts : fails_with other (print_all texts).
Proof. intros st e st' [=]. Qed.

Lemma fails_with_set_catalogue other d : fails_with other (set_catalogue d).
Proof. intros st e st' [=]. Qed.

Lemma fails_with_save_data other d : fails_with other (save_data d).
Proof. intros st e st' [=]. Qed.

Lemma fails_with_lift {A} other (a : A) : fails_with other (lift (inr a)).
Proof. intros st e st' [=]. Qed.


Lemma fails_with_input other prompt : fails_with other (input prompt).
Proof.
  intros st e st'. unfold input. destruct (stdin st) as [ | l rest] eqn:Hin;
    intros [= <- <-]. left. now split.
Qed.

Lemma fails_with_input_int other prompt : fails_with other (input_int prompt).
Proof.
  intros st e st'. unfold input_int.
  destruct (input_int_loop prompt (stdin st) []) as [r' [lines out]] eqn:Hloop.
  intros [= -> <-]. left.
  exact (proj2 (input_int_loop_rest _ _ _ _ _ _ Hloop) e eq_refl).
Qed.

Lemma fails_with_input_something other prompt :
  fails_with other (input_something prompt).
Proof.
  intros st e st'. unfold input_something.
  destruct (input_something_loop prompt (stdin st) []) as [r' [lines out]] eqn:Hloop.
  intros [= -> <-]. left.
  exact (proj1 (proj2 (input_something_loop_rest _ _ _ _ _ _ Hloop)) e eq_refl).
Qed.

Create HintDb fails.

#[local] Hint Resolve fails_with_ret fails_with_get_data fails_with_print
  fails_with_print_all fails_with_set_catalogue fails_with_save_data
  fails_with_lift fails_with_input fails_with_input_int
  fails_with_input_something : fails.
















Lemma read_index_undecimal a prompt st :
  undecimal a -> read_index (Some a) prompt st = (inl Py.ValueError, st).
Proof.
  intros [Hdigit Hint]. unfold read_index, given.
  assert (Htext : Py.truthy a = true)
    by (unfold Py.isdigit in Hdigit; now apply andb_true_iff in Hdigit).
  now rewrite Htext, Hdigit, Hint.
Qed.

(** A view or delete command of a catalogue that is not empty, with a
    position that passes [isdigit] and that [int] refuses, raises
    [ValueError] before it prints anything; nothing catches it. *)
Theorem undecimal_position_raises_ValueError (st : admin) (line first a : string)
    (rest more : list string) :
  stdin st = line :: rest ->
  Py.split1 (Py.strip line) = first :: a :: more ->
  Py.lower first = "v" \/ Py.lower first = "d" ->
  undecimal a ->
  data st <> [] ->
  menu_step st = (inl Py.ValueError, set_stdin rest (emit [Line menu; Ask "> "] st)).
Proof.
  intros Hin Hparts Hchoice Hun Hd. unfold menu_step, input. run.
  rewrite Hin, Hparts. cbn [subscript lookup list_lookup length].
  destruct (Z.ltb_spec 1 (Z.of_nat (S (S (length more))))) as [_ | ]; [ | lia].
  destruct Hchoice as [-> | ->]; simpl; unfold cmd_view, cmd_delete; run;
    (destruct (data st) as [ | x d] eqn:Hdata; [congruence|]);
    rewrite (read_index_undecimal a _ _ Hun); simpl;
    unfold set_stdin, emit; simpl; rewrite Hdata; now rewrite <- !app_assoc.
Qed.

(** On an empty catalogue the list, search, view, delete and top commands
    print that no jokes are saved, whatever follows the letter, and ask
    for nothing. *)
Theorem empty_catalogue_is_reported (st : admin) (line first : string)
    (rest more : list string) :
  data st = [] ->
  stdin st = line :: rest ->
  Py.split1 (Py.strip line) = first :: more ->
  In (Py.lower first) ["l"; "s"; "v"; "d"; "t"] ->
  menu_step st
  = (inr Next, set_stdin rest (emit [Line menu; Ask "> "; Line "No jokes saved."] st)).
Proof.
  intros Hd Hin Hparts Hchoice. unfold menu_step, input. run.
  rewrite Hin, Hparts. cbn [subscript lookup list_lookup].
  simpl in Hchoice.
  destruct Hchoice as [<- | [<- | [<- | [<- | [<- | []]]]]]; simpl;
    unfold cmd_list, cmd_search, cmd_view, cmd_delete, cmd_top; run;
    rewrite Hd; unfold set_stdin, emit; simpl; rewrite Hd; now rewrite <- !app_assoc.
Qed.

(** The view command reports a position outside [1 .. n] as an invalid
    index; position 0 is not read as Python's index [-1]. *)
Theorem view_rejects_position_out_of_range (arg : option string) (st st1 : admin) (k : Z) :
  data st <> [] ->
  read_index arg "Joke number to view: " st = (inr (k - 1), st1) ->
  ~ 1 <= k <= Z.of_nat (length (data st)) ->
  cmd_view arg st = (inr tt, emit [Line "Invalid index number."] st1).
Proof.
  intros Hd Hread Hk. unfold cmd_view. run.
  destruct (data st) as [ | x rest] eqn:Hdata; [congruence|].
  rewrite Hread.
  destruct (in_range (k - 1) (x :: rest)) eqn:Hin; [ | reflexivity].
  apply in_range_spec in Hin. lia.
Qed.

(** *** The whole session *)

Lemma menu_loop_invariant (P : admin -> Prop) :
  (forall st r st', P st -> menu_step st = (r, st') -> P st') ->
  forall turns st r st', P st -> menu_loop turns st = (r, st') -> P st'.
Proof.
  intros Hstep. induction turns as [ | n IH]; intros st r st' HP.
  - now intros [= _ <-].
  - cbn [menu_loop]. unfold mbind, cli_bind.
    destruct (menu_step st) as [[e | c] st1] eqn:Hrun;
      pose proof (Hstep _ _ _ HP Hrun) as HP1.
    + now intros [= _ <-].
    + destruct c; [apply IH; exact HP1 | now intros [= _ <-]].
Qed.

Lemma admin_start_written (d : list joke) :
  codec_round_trips ->
  forall lines,
    admin_start (write_json d) lines
    = inr (Some (Admin d (write_json d) lines [Line welcome])).
Proof.
  intros Hcodec lines. unfold admin_start, admin_load, load_json, write_json.
  rewrite Hcodec. cbn [catalogue_value Py.try_except]. now rewrite catalogue_of_values.
Qed.

Lemma admin_start_follows f lines st :
  admin_start f lines = inr (Some st) -> file_follows st.
Proof.
  unfold admin_start, file_follows. destruct (admin_load f) as [e | items] eqn:Hload;
    [discriminate|].
  destruct (catalogue_of items) as [d | ] eqn:Hd; [ | discriminate].
  intros [= <-] lines'. cbn [file data]. unfold admin_start. now rewrite Hload, Hd.
Qed.

Lemma change_follows st st' :
  codec_round_trips -> change st st' -> file_follows st -> file_follows st'.
Proof.
  intros Hcodec [Hd Hf | s p _ _ _ Hf | i j _ _ Hf] Hst lines.
  - rewrite Hd, Hf. apply Hst.
  - rewrite Hf. now apply admin_start_written.
  - rewrite Hf. now apply admin_start_written.
Qed.

(** Whatever the commands of a session and however it ends, with [q],
    with an exception or still in the loop, the file is in step with the
    catalogue: started again on the file the session leaves, the program
    finds the catalogue as the session left it. *)
Theorem restart_finds_the_catalogue (f : file_state) (lines lines' : list string)
    (turns : nat) (st st' : admin) (r : Py.exn + control) :
  codec_round_trips ->
  admin_start f lines = inr (Some st) ->
  menu_loop turns st = (r, st') ->
  admin_start (file st') lines'
  = inr (Some (Admin (data st') (file st') lines' [Line welcome])).
Proof.
  intros Hcodec Hstart Hloop.
  apply (menu_loop_invariant file_follows) with (turns := turns) (st := st) (r := r);
    [ | exact (admin_start_follows _ _ _ Hstart) | exact Hloop].
  intros st0 r0 st1 HP Hstep.
  exact (change_follows _ _ Hcodec (proj1 (menu_step_change _ _ _ Hstep)) HP).
Qed.


(** *** A session at the rating window *)

Lemma rate_joke_step r g j :
  gui_data g !! current_joke g = Some j ->
  exists g1,
    rate_joke r g = inr g1
    /\ gui_data g1 = <[current_joke g := add_one r j]> (gui_data g)
    /\ gui_file g1 = write_json (gui_data g1)
    /\ moved g g1.
Proof.
  intros Hj.
  pose proof (lookup_lt_Some _ _ _ Hj) as Hlt.
  unfold rate_joke. rewrite (subscript_Some _ _ _ Hj). cbn [mbind result_bind].
  set (d' := <[current_joke g := add_one r j]> (gui_data g)).
  assert (Hlen : length d' = length (gui_data g)) by apply length_insert.
  unfold moved.
  destruct (is_last _) eqn:Hlast.
  - apply is_last_spec in Hlast. simpl in Hlast. fold d' in Hlast.
    eexists. split; [reflexivity|]. simpl. fold d'.
    rewrite decide_True by lia. prop.
  - assert (Hnot : S (current_joke g) <> length (gui_data g)).
    { intros Heq. apply Bool.not_true_iff_false in Hlast. apply Hlast.
      apply is_last_spec. simpl. fold d'. lia. }
    destruct (lookup_lt_is_Some_2 d' (S (current_joke g))) as [next Hnext]; [lia|].
    match goal with |- context [show_joke ?x] =>
      destruct (show_joke_presents x next) as (g' & Hshow & Hd & Hc & Hf & Hdl & Hdes & Hp)
    end.
    { simpl. rewrite <- Hnext. f_equal. lia. }
    simpl in Hd, Hc, Hf, Hdl, Hdes. fold d' in Hd, Hf.
    exists g'. split; [exact Hshow|]. split; [exact Hd|].
    split; [now rewrite Hf, Hd|].
    rewrite decide_False by exact Hnot.
    split; [exact Hdes|]. split; [lia|].
    exists next. split; [now rewrite Hd | exact Hp].
Qed.

Lemma abstain_joke_step g j :
  gui_data g !! current_joke g = Some j ->
  exists g1,
    abstain_joke g = inr g1
    /\ gui_data g1 = gui_data g
    /\ gui_file g1 = gui_file g
    /\ moved g g1.
Proof.
  intros Hj.
  pose proof (lookup_lt_Some _ _ _ Hj) as Hlt.
  unfold abstain_joke, moved.
  destruct (is_last g) eqn:Hlast.
  - apply is_last_spec in Hlast.
    eexists. split; [reflexivity|]. simpl.
    rewrite decide_True by exact Hlast. prop.
  - assert (Hnot : S (current_joke g) <> length (gui_data g)).
    { intros Heq. apply is_last_spec in Heq. congruence. }
    destruct (lookup_lt_is_Some_2 (gui_data g) (S (current_joke g))) as [next Hnext]; [lia|].
    match goal with |- context [show_joke ?x] =>
      destruct (show_joke_presents x next) as (g' & Hshow & Hd & Hc & Hf & Hdl & Hdes & Hp)
    end.
    { simpl. rewrite <- Hnext. f_equal. lia. }
    simpl in Hd, Hc, Hf, Hdl, Hdes.
    exists g'. split; [exact Hshow|].
    rewrite decide_False by exact Hnot.
    split; [exact Hd|]. split; [exact Hf|].
    split; [exact Hdes|]. split; [lia|].
    exists next. split; [now rewrite Hd | exact Hp].
Qed.

Lemma handle_button e g j :
  moves_on e = true ->
  gui_data g !! current_joke g = Some j ->
  exists g1,
    handle e g = inr g1
    /\ gui_data g1 = <[current_joke g := outcome e j]> (gui_data g)
    /\ (gui_file g1 = write_json (gui_data g1)
        \/ gui_data g1 = gui_data g /\ gui_file g1 = gui_file g)
    /\ moved g g1.
Proof.
  intros He Hj. destruct e; try discriminate; cbn [handle outcome].
  - destruct (rate_joke_step OnLaughs g j Hj) as (g1 & Hrun & Hd & Hf & Hmv).
    exists g1. split; [exact Hrun|]. split; [exact Hd|]. split; [now left | exact Hmv].
  - destruct (abstain_joke_step g j Hj) as (g1 & Hrun & Hd & Hf & Hmv).
    exists g1. split; [exact Hrun|].
    split; [now rewrite Hd, (list_insert_id _ _ _ Hj)|]. split; [now right | exact Hmv].
  - destruct (rate_joke_step OnGroans g j Hj) as (g1 & Hrun & Hd & Hf & Hmv).
    exists g1. split; [exact Hrun|]. split; [exact Hd|]. split; [now left | exact Hmv].
Qed.

Lemma mainloop_destroyed events g : destroyed g = true -> mainloop events g = inr g.
Proof. intros Hdes. destruct events; cbn [mainloop]; [ | rewrite Hdes]; reflexivity. Qed.

Lemma mainloop_in_order events : forall g,
  destroyed g = false ->
  (current_joke g < length (gui_data g))%nat ->
  exists g',
    mainloop events g = inr g'
    /\ length (gui_data g') = length (gui_data g)
    /\ (forall k e j,
          (k < length (gui_data g) - current_joke g)%nat ->
          List.filter moves_on events !! k = Some e ->
          gui_data g !! (current_joke g + k)%nat = Some j ->
          gui_data g' !! (current_joke g + k)%nat = Some (outcome e j))
    /\ (forall i,
          (i < current_joke g
           \/ current_joke g + length (List.filter moves_on events) <= i)%nat ->
          gui_data g' !! i = gui_data g !! i)
    /\ destroyed g'
       = bool_decide (length (gui_data g) - current_joke g
                      <= length (List.filter moves_on events))%nat
    /\ current_joke g'
       = (current_joke g
          + Nat.min (length (List.filter moves_on events))
                    (length (gui_data g) - current_joke g - 1))%nat
    /\ (gui_data g' = gui_data g /\ gui_file g' = gui_file g
        \/ gui_file g' = write_json (gui_data g')).
Proof.
  induction events as [ | e es IH]; intros g Hdes Hcur.
  { exists g. split; [reflexivity|]. split; [reflexivity|].
    split; [intros k e j _ Hk; discriminate Hk|]. split; [reflexivity|].
    split; [rewrite Hdes; symmetry; apply bool_decide_eq_false_2; simpl; lia|].
    split; [simpl; lia | now left]. }
  cbn [mainloop List.filter]. rewrite Hdes.
  destruct (moves_on e) eqn:He; [ | destruct e; try discriminate; exact (IH (click g) Hdes Hcur)].
  destruct (lookup_lt_is_Some_2 _ _ Hcur) as [j Hj].
  destruct (handle_button e g j He Hj) as (g1 & Hrun & Hd1 & Hf1 & Hmv).
  rewrite Hrun. cbn [mbind result_bind].
  assert (Hlen : length (gui_data g1) = length (gui_data g))
    by (rewrite Hd1; apply length_insert).
  assert (Hat : gui_data g1 !! current_joke g = Some (outcome e j))
    by (rewrite Hd1; now apply list_lookup_insert_eq).
  assert (Hother : forall i, i <> current_joke g -> gui_data g1 !! i = gui_data g !! i)
    by (intros i Hi; rewrite Hd1; now apply list_lookup_insert_ne).
  unfold moved in Hmv.
  destruct (decide (S (current_joke g) = length (gui_data g))) as [Hlast | Hnot].
  - destruct Hmv as (Hdes1 & Hc1 & _).
    rewrite (mainloop_destroyed es g1 Hdes1). exists g1.
    split; [reflexivity|]. split; [exact Hlen|]. split.
    { intros k e0 j0 Hk. assert (k = 0%nat) as -> by lia.
      rewrite Nat.add_0_r, Hj. intros [= <-] [= <-]. exact Hat. }
    split; [intros i Hi; apply Hother; simpl in Hi; lia|].
    split; [rewrite Hdes1; symmetry; apply bool_decide_eq_true_2; simpl; lia|].
    split; [rewrite Hc1; cbn [length]; lia|].
    destruct Hf1 as [Hf1 | Hf1]; [now right | now left].
  - destruct Hmv as (Hdes1 & Hc1 & _). rewrite Hdes in Hdes1.
    destruct (IH g1 Hdes1 ltac:(lia)) as (g' & Hloop & Hlen' & Hin & Hout & Hdes' & Hc' & Hf').
    rewrite Hc1, Hlen in *. exists g'.
    split; [exact Hloop|]. split; [exact Hlen'|]. split.
    { intros [ | k] e0 j0 Hk.
      - rewrite Nat.add_0_r, Hj. intros [= <-] [= <-].
        rewrite Hout by lia. exact Hat.
      - cbn [lookup list_lookup]. intros He0 Hj0.
        replace (current_joke g + S k)%nat with (S (current_joke g) + k)%nat in * by lia.
        apply (Hin k e0 j0); [lia | exact He0|].
        now rewrite Hother by lia. }
    split; [intros i Hi; simpl in Hi; rewrite Hout by lia; apply Hother; lia|].
    split; [rewrite Hdes'; apply bool_decide_ext; cbn [length]; lia|].
    split; [rewrite Hc'; cbn [length]; lia|].
    destruct Hf' as [[Hsame Hfile] | Hfile]; [ | now right].
    destruct Hf1 as [Hf1 | [Hd Hf1]]; [right; congruence | left; split; congruence].
Qed.

(** A session at the window, from a joke under the cursor: no callback
    raises; the presses on the three buttons go, in their order, to the
    jokes from the cursor on, one press each, a laugh or a groan adding
    one to its counter and nothing else changing; clicks and the presses
    after the last joke change no joke; the window is destroyed exactly
    when as many buttons were pressed as jokes were left; and the file is
    untouched together with the jokes, or holds the jokes as they are. *)
Theorem mainloop_rates_in_order (events : list event) (g : gui) :
  destroyed g = false ->
  (current_joke g < length (gui_data g))%nat ->
  let presses := List.filter moves_on events in
  let left := (length (gui_data g) - current_joke g)%nat in
  exists g',
    mainloop events g = inr g'
    /\ length (gui_data g') = length (gui_data g)
    /\ (forall k e j,
          (k < left)%nat -> presses !! k = Some e ->
          gui_data g !! (current_joke g + k)%nat = Some j ->
          gui_data g' !! (current_joke g + k)%nat = Some (outcome e j))
    /\ (forall i,
          (i < current_joke g \/ current_joke g + length presses <= i)%nat ->
          gui_data g' !! i = gui_data g !! i)
    /\ destroyed g' = bool_decide (left <= length presses)%nat
    /\ current_joke g' = (current_joke g + Nat.min (length presses) (left - 1))%nat
    /\ (gui_data g' = gui_data g /\ gui_file g' = gui_file g
        \/ gui_file g' = write_json (gui_data g')).
Proof. intros Hdes Hcur presses left. now apply mainloop_in_order. Qed.




(** The window starts on the first joke of the shuffled list: for a file
    holding a catalogue that is not empty, and a shuffle that permutes,
    the constructor presents the joke at the head of a permutation of the
    catalogue, with no box shown and the file as it was. *)
Theorem ProgramGUI_presents_first_of_shuffle (content : string) (d : list joke) :
  (forall l, Permutation (shuffle l) l) ->
  json_loads content = Some (catalogue_value d) ->
  d <> [] ->
  exists g first,
    ProgramGUI (Text content) = inr (Some (Presenting g))
    /\ Permutation (gui_data g) d
    /\ current_joke g = 0%nat
    /\ gui_data g !! 0%nat = Some first
    /\ presents g first
    /\ shows g
    /\ gui_file g = Text content
    /\ dialogs g = []
    /\ destroyed g = false.
Proof.
  intros Hshuffle Hload Hd. destruct d as [ | x rest]; [congruence|].
  unfold ProgramGUI, gui_load, load_json. rewrite Hload.
  cbn [catalogue_value map Py.try_except mbind result_bind].
  destruct (@Permutation_map_inv _ _ joke_value _ (x :: rest) (Hshuffle _))
    as (d' & Heq & Hperm).
  cbn [map] in Heq. rewrite Heq, catalogue_of_values.
  destruct d' as [ | first d'];
    [symmetry in Hperm; now apply Permutation_nil_cons in Hperm|].
  match goal with |- context [show_joke ?g0] =>
    destruct (show_joke_presents g0 first eq_refl)
      as (g & Hshow & Hdata & Hcur & Hfile & Hdl & Hdes & Hp)
  end.
  rewrite Hshow. cbn [mbind result_bind mret result_ret].
  cbn in Hdata, Hcur, Hfile, Hdl, Hdes.
  exists g, first. split; [reflexivity|].
  split; [rewrite Hdata; now symmetry|]. split; [exact Hcur|].
  split; [now rewrite Hdata|]. split; [exact Hp|]. split.
  { exists first. rewrite Hcur, Hdata. destruct Hp as (Hs & Hl & Hc & _).
    split; [reflexivity|]. split; [exact Hs|]. split; [exact Hc | now left]. }
  now repeat split.
Qed.

(** What a rating writes is what the admin program reads: after a laugh
    or a groan the admin program, started on the file, finds the jokes of
    the window, in the order of the window, with the new count. *)
Theorem admin_reads_what_rating_saved (r : rating) (g : gui) (j : joke)
    (lines : list string) :
  codec_round_trips ->
  gui_data g !! current_joke g = Some j ->
  exists g',
    rate_joke r g = inr g'
    /\ gui_data g' !! current_joke g = Some (add_one r j)
    /\ admin_start (gui_file g') lines
       = inr (Some (Admin (gui_data g') (gui_file g') lines [Line welcome])).
Proof.
  intros Hcodec Hj.
  destruct (rate_joke_step r g j Hj) as (g' & Hrun & Hd & Hf & _).
  exists g'. split; [exact Hrun|]. split.
  - rewrite Hd. apply list_lookup_insert_eq. exact (lookup_lt_Some _ _ _ Hj).
  - rewrite Hf. now apply admin_start_written.
Qed.

(** *** A position given with the command letter *)


Lemma menu_step_delete st line first a rest k j :
  stdin st = line :: rest ->
  Py.split1 (Py.strip line) = [first; a] ->
  Py.lower first = "d" ->
  (forall st0, read_index (Some a) "Joke number to delete: " st0 = (inr (k - 1), st0)) ->
  1 <= k -> data st !! Z.to_nat (k - 1) = Some j ->
  let d' := delete (Z.to_nat (k - 1)) (data st) in
  menu_step st
  = (inr Next,
     Admin d' (write_json d') rest
           (stdout st ++ [Line menu; Ask "> "; Line "Joke deleted."])%list).
Proof.
  intros Hin Hparts Hv Hread Hk Hj d'. subst d'.
  pose proof (lookup_lt_Some _ _ _ Hj) as Hlt.
  unfold menu_step, input. run.
  rewrite Hin, Hparts. cbn [subscript lookup list_lookup length]. rewrite Hv. simpl.
  unfold cmd_delete. run.
  destruct (data st) as [ | x d] eqn:Hdata; [simpl in Hlt; lia|].
  rewrite Hread. simpl.
  destruct (in_range_spec (k - 1) (x :: d)) as [_ Hrange].
  rewrite Hrange by lia.
  unfold set_stdin, set_file, set_data, emit. simpl. rewrite ?Hdata.
  now rewrite <- !app_assoc.
Qed.

Lemma menu_step_add st line first s p rest :
  stdin st = line :: s :: p :: rest ->
  Py.split1 (Py.strip line) = [first] ->
  Py.lower first = "a" ->
  Py.strip s <> "" -> Py.strip p <> "" ->
  let d' := (data st ++ [Joke (Py.strip s) (Py.strip p) 0 0])%list in
  menu_step st
  = (inr Next,
     Admin d' (write_json d') rest
           (stdout st ++ [Line menu; Ask "> "; Ask "Enter setup of joke: ";
                          Ask "Enter punchline of joke: "; Line "Joke added."])%list).
Proof.
  intros Hin Hparts Ha Hs Hp d'. subst d'.
  unfold menu_step, input. run.
  rewrite Hin, Hparts. cbn [subscript lookup list_lookup length]. rewrite Ha. simpl.
  unfold cmd_add, input_something. run. cbn [input_something_loop].
  rewrite (truthy_nonempty _ Hs). simpl. rewrite (truthy_nonempty _ Hp). simpl.
  unfold set_stdin, set_file, set_data, emit. simpl.
  now rewrite <- !app_assoc.
Qed.

End Catalogue.

(** ** Decimal text

    [str] prints a number in decimal; [int] and the JSON reader read it
    back. *)

Section DecimalText.

Import DecimalPos.Unsigned.

(** The digit a decimal numeral starts with, and the rest. *)
Lemma of_uint_step d :
  d <> Nil ->
  Pos.of_uint d = (hd d * 10 ^ usize (tl d) + Pos.of_uint (tl d))%N.
Proof.
  intros Hd. rewrite !of_uint_alt.
  destruct d; try congruence; cbn [tl hd];
    match goal with
    | |- context [Decimal.rev (?D d)] =>
        change (Decimal.rev (D d)) with (revapp d (D Nil))
    end; rewrite of_lu_revapp; cbn [of_lu]; lia.
Qed.

Lemma usize_step d : d <> Nil -> usize d = N.succ (usize (tl d)).
Proof. destruct d; try congruence; reflexivity. Qed.

Lemma string_of_uint_step d :
  d <> Nil ->
  NilEmpty.string_of_uint d
  = String (ascii_of_N (48 + hd d)) (NilEmpty.string_of_uint (tl d)).
Proof. destruct d; try congruence; reflexivity. Qed.

Lemma hd_digit d : (hd d < 10)%N.
Proof. destruct d; simpl; lia. Qed.

Lemma digit_char (k : N) :
  (k < 10)%N ->
  Py.isdecimal_char (ascii_of_N (48 + k)) = true
  /\ Py.code (ascii_of_N (48 + k)) = (48 + k)%N.
Proof.
  intros Hk.
  assert (Hcases : (k = 0 \/ k = 1 \/ k = 2 \/ k = 3 \/ k = 4 \/ k = 5 \/ k = 6
                    \/ k = 7 \/ k = 8 \/ k = 9)%N) by lia.
  repeat destruct Hcases as [-> | Hcases]; try subst k; now vm_compute.
Qed.

Lemma digits_value_uint d : forall acc,
  Py.digits_value (NilEmpty.string_of_uint d) acc true
  = Some (acc * 10 ^ Z.of_N (usize d) + Z.of_N (Pos.of_uint d)).
Proof.
  induction d; intros acc; [simpl; f_equal; lia | ..].
  all: match goal with
       | |- context [NilEmpty.string_of_uint ?x] =>
           assert (Hd : x <> Nil) by discriminate;
           rewrite (string_of_uint_step x Hd), (of_uint_step x Hd), (usize_step x Hd);
           destruct (digit_char (hd x) (hd_digit x)) as [Hdec Hcode]
       end.
  all: cbn [Py.digits_value]; rewrite Hdec, Hcode; cbn [tl hd]; rewrite IHd; f_equal.
  all: rewrite N2Z.inj_succ, Z.pow_succ_r by lia.
  all: rewrite N2Z.inj_add, N2Z.inj_mul, N2Z.inj_pow; simpl Z.of_N; lia.
Qed.


Lemma digits_value_flag d acc :
  d <> Nil ->
  Py.digits_value (NilEmpty.string_of_uint d) acc false
  = Py.digits_value (NilEmpty.string_of_uint d) acc true.
Proof. destruct d; [congruence | reflexivity ..]. Qed.

Lemma string_of_uint_decimal d :
  forallb Py.isdecimal_char (list_ascii_of_string (NilEmpty.string_of_uint d)) = true.
Proof.
  induction d; [reflexivity | ..];
    cbn [NilEmpty.string_of_uint list_ascii_of_string forallb]; rewrite IHd; reflexivity.
Qed.

Lemma decimal_not_space c :
  Py.isdecimal_char c = true -> Py.isspace_int c = false.
Proof. destruct c as [[] [] [] [] [] [] [] []]; vm_compute; congruence. Qed.

Lemma decimal_is_digit c : Py.isdecimal_char c = true -> Py.isdigit_char c = true.
Proof. destruct c as [[] [] [] [] [] [] [] []]; vm_compute; congruence. Qed.

Lemma rstrip_no_space space s :
  forallb (fun c => negb (space c)) (list_ascii_of_string s) = true ->
  Py.rstrip_of space s = s.
Proof.
  induction s as [ | c r IH]; [reflexivity|].
  cbn [list_ascii_of_string forallb Py.rstrip_of]. intros [Hc Hr]%andb_true_iff.
  apply negb_true_iff in Hc. rewrite Hc, (IH Hr). reflexivity.
Qed.

Lemma decimal_no_space s :
  forallb Py.isdecimal_char (list_ascii_of_string s) = true ->
  forallb (fun c => negb (Py.isspace_int c)) (list_ascii_of_string s) = true.
Proof.
  rewrite !forallb_forall. intros H c Hc.
  now rewrite (decimal_not_space c (H c Hc)).
Qed.

Lemma strip_no_space space s :
  forallb (fun c => negb (space c)) (list_ascii_of_string s) = true ->
  Py.strip_of space s = s.
Proof.
  intros Hs. unfold Py.strip_of.
  assert (Hl : Py.lstrip_of space s = s).
  { destruct s as [ | c r]; [reflexivity|].
    cbn [list_ascii_of_string forallb] in Hs. apply andb_true_iff in Hs as [Hc _].
    apply negb_true_iff in Hc. cbn [Py.lstrip_of]. now rewrite Hc. }
  rewrite Hl. now apply rstrip_no_space.
Qed.

Lemma int_unsigned c r :
  Py.strip_of Py.isspace_int (String c r) = String c r ->
  Ascii.eqb c "-" = false -> Ascii.eqb c "+" = false ->
  Py.int (String c r) = Py.digits_value (String c r) 0 false.
Proof. intros Hs Hminus Hplus. unfold Py.int. now rewrite Hs, Hminus, Hplus. Qed.

Lemma int_uint d :
  d <> Nil ->
  Py.int (NilEmpty.string_of_uint d) = Some (Z.of_N (Pos.of_uint d))
  /\ Py.int (String "-" (NilEmpty.string_of_uint d)) = Some (- Z.of_N (Pos.of_uint d)).
Proof.
  intros Hd.
  pose proof (decimal_no_space _ (string_of_uint_decimal d)) as Hspace.
  assert (Hvalue : Py.digits_value (NilEmpty.string_of_uint d) 0 false
                   = Some (Z.of_N (Pos.of_uint d))).
  { rewrite (digits_value_flag d 0 Hd), digits_value_uint. f_equal; lia. }
  split.
  - rewrite <- Hvalue. pose proof (strip_no_space _ _ Hspace) as Hstrip.
    destruct (digit_char (hd d) (hd_digit d)) as [_ Hcode].
    rewrite (string_of_uint_step d Hd) in *.
    apply int_unsigned; [exact Hstrip | |]; apply Ascii.eqb_neq; intros Heq;
      rewrite Heq in Hcode;
      match type of Hcode with
      | Py.code ?c = _ =>
          let v := eval vm_compute in (Py.code c) in change (Py.code c) with v in Hcode
      end; lia.
  - unfold Py.int. rewrite strip_no_space by (cbn; exact Hspace).
    cbn [Ascii.eqb Bool.eqb]. now rewrite Hvalue.
Qed.

(** [int] reads back what [str] prints. *)
Lemma int_str (k : Z) : Py.int (Py.str k) = Some k.
Proof.
  unfold Py.str. destruct k as [ | p | p]; [reflexivity | ..];
    pose proof (to_uint_nonnil p) as Hd;
    destruct (int_uint (Pos.to_uint p) Hd) as [Hpos Hneg];
    rewrite (of_to p) in Hpos, Hneg;
    cbn [Z.to_int NilZero.string_of_int]; unfold NilZero.string_of_uint;
    destruct (Pos.to_uint p); try congruence; assumption.
Qed.

(** The text of a number from 0 on is made of digits. *)
Lemma isdigit_str (k : Z) : 0 <= k -> Py.isdigit (Py.str k) = true.
Proof.
  intros Hk. unfold Py.str, Py.isdigit.
  destruct k as [ | p | p]; [reflexivity | | lia].
  pose proof (to_uint_nonnil p) as Hd.
  cbn [Z.to_int NilZero.string_of_int]. unfold NilZero.string_of_uint.
  assert (Hall : forallb Py.isdigit_char
                   (list_ascii_of_string (NilEmpty.string_of_uint (Pos.to_uint p))) = true).
  { pose proof (string_of_uint_decimal (Pos.to_uint p)) as Hdec.
    rewrite forallb_forall in *. intros c Hc. apply decimal_is_digit, Hdec, Hc. }
  destruct (Pos.to_uint p); try congruence; now rewrite Hall.
Qed.


Lemma to_uint_head p : hd (Pos.to_uint p) <> 0%N.
Proof.
  intros Hzero. destruct (Pos.to_uint p) as [ | d | | | | | | | | | ] eqn:Hp;
    try discriminate; try (now apply (to_uint_nonnil p)).
  pose proof (of_to p) as Hof. rewrite Hp in Hof. cbn [Pos.of_uint] in Hof.
  pose proof (to_of d) as Hnorm. rewrite Hof in Hnorm. cbn [N.to_uint] in Hnorm.
  rewrite Hp in Hnorm. destruct (uint_eq_dec d Nil) as [-> | Hd].
  - now apply (to_uint_nonzero p).
  - pose proof (nb_digits_unorm d Hd) as Hlen. rewrite <- Hnorm in Hlen.
    simpl in Hlen. lia.
Qed.

End DecimalText.

(** ** The reference codec reads back the catalogues it writes *)

Section JsonText.

Import DecimalPos.Unsigned.

#[local] Arguments String.append !s1 s2 : simpl nomatch.

Lemma append_assoc (a b c : string) : (a ++ b) ++ c = a ++ b ++ c.
Proof. induction a as [ | x a IH]; [reflexivity | cbn [String.append]; now f_equal]. Qed.

Lemma scan_digits_uint d : forall acc t,
  Json.ends_number t ->
  Json.scan_digits (NilEmpty.string_of_uint d ++ t) acc
  = (acc * 10 ^ Z.of_N (usize d) + Z.of_N (Pos.of_uint d), t).
Proof.
  induction d; intros acc t Ht.
  { cbn [NilEmpty.string_of_uint String.append usize Pos.of_uint].
    replace (acc * 10 ^ Z.of_N 0 + Z.of_N 0) with acc by (simpl; lia).
    destruct t as [ | c r]; [reflexivity|]. simpl in Ht. cbn [Json.scan_digits].
    now rewrite Ht. }
  all: match goal with
       | |- context [NilEmpty.string_of_uint ?x] =>
           assert (Hd : x <> Nil) by discriminate;
           rewrite (string_of_uint_step x Hd), (of_uint_step x Hd), (usize_step x Hd);
           destruct (digit_char (hd x) (hd_digit x)) as [Hdec Hcode]
       end.
  all: cbn [String.append Json.scan_digits]; rewrite Hdec, Hcode; cbn [tl hd];
    rewrite (IHd _ t Ht); f_equal.
  all: rewrite N2Z.inj_succ, Z.pow_succ_r by lia.
  all: rewrite N2Z.inj_add, N2Z.inj_mul, N2Z.inj_pow; simpl Z.of_N; lia.
Qed.

Lemma scan_nat_uint p t :
  Json.ends_number t ->
  Json.scan_nat (NilEmpty.string_of_uint (Pos.to_uint p) ++ t) = Some (Z.pos p, t).
Proof.
  intros Ht. pose proof (to_uint_nonnil p) as Hd. pose proof (to_uint_head p) as Hhd.
  pose proof (scan_digits_uint (Pos.to_uint p) 0 t Ht) as Hscan.
  rewrite (of_to p) in Hscan.
  destruct (digit_char (hd (Pos.to_uint p)) (hd_digit _)) as [Hdec Hcode].
  rewrite (string_of_uint_step _ Hd) in *. cbn [String.append] in *.
  unfold Json.scan_nat. rewrite Hdec.
  replace (Ascii.eqb _ "0") with false; [now rewrite Hscan|].
  symmetry. apply Ascii.eqb_neq. intros Heq. rewrite Heq in Hcode.
  change (Py.code "0") with 48%N in Hcode. lia.
Qed.

(** The reader takes the text of an integer up to the end of its digits. *)
Lemma scan_int_str (k : Z) (t : string) :
  Json.ends_number t -> Json.scan_int (Py.str k ++ t) = Some (k, t).
Proof.
  intros Ht. unfold Py.str. destruct k as [ | p | p]; [reflexivity | ..];
    pose proof (to_uint_nonnil p) as Hd;
    pose proof (scan_nat_uint p t Ht) as Hscan;
    destruct (digit_char (hd (Pos.to_uint p)) (hd_digit _)) as [_ Hcode];
    cbn [Z.to_int NilZero.string_of_int]; unfold NilZero.string_of_uint;
    destruct (Pos.to_uint p) eqn:Hp; try congruence; rewrite <- Hp in *.
  all: unfold Json.scan_int.
  11-20: cbn [String.append Json.after Ascii.eqb Bool.eqb]; now rewrite Hscan.
  all: rewrite (string_of_uint_step _ Hd) in *; cbn [String.append Json.after] in *.
  all: replace (Ascii.eqb "-" _) with false; [exact Hscan|].
  all: symmetry; apply Ascii.eqb_neq; intros Heq; rewrite <- Heq in Hcode;
    change (Py.code "-") with 45%N in Hcode; lia.
Qed.


Lemma scanstring_escape c t :
  Json.scanstring (Json.escape c ++ t) = Json.push c (Json.scanstring t).
Proof. destruct c as [[] [] [] [] [] [] [] []]; reflexivity. Qed.

Lemma scanstring_escape_all s t :
  Json.scanstring (Json.escape_all s ++ String Json.quote t) = Some (s, t).
Proof.
  induction s as [ | c r IH]; [reflexivity|].
  cbn [Json.escape_all]. now rewrite append_assoc, scanstring_escape, IH.
Qed.

Lemma dump_string_app s t :
  Json.dump_string s ++ t
  = String Json.quote (Json.escape_all s ++ String Json.quote t).
Proof. unfold Json.dump_string. cbn [String.append]. now rewrite append_assoc. Qed.

Lemma parse_string fuel s t :
  Json.parse_value (S fuel) (Json.dump_string s ++ t) = Some (JStr s, t).
Proof.
  rewrite dump_string_app. cbn [Json.parse_value].
  change (Ascii.eqb Json.quote Json.quote) with true. cbv iota.
  now rewrite scanstring_escape_all.
Qed.

Lemma str_head k :
  exists c r, Py.str k = String c r
    /\ (Py.isdecimal_char c = true \/ c = "-"%char).
Proof.
  unfold Py.str. destruct k as [ | p | p]; cbn [Z.to_int NilZero.string_of_int].
  - exists "0"%char, "". now split; [ | left].
  - pose proof (to_uint_nonnil p) as Hd. unfold NilZero.string_of_uint.
    destruct (digit_char (hd (Pos.to_uint p)) (hd_digit _)) as [Hdec _].
    rewrite (string_of_uint_step _ Hd) in *.
    destruct (Pos.to_uint p); try congruence; eexists _, _; (split; [reflexivity|now left]).
  - eexists _, _. split; [reflexivity | now right].
Qed.

Lemma number_head c :
  Py.isdecimal_char c = true \/ c = "-"%char ->
  Json.is_ws c = false /\ Ascii.eqb c Json.quote = false
  /\ Ascii.eqb c "[" = false /\ Ascii.eqb c "{" = false
  /\ Ascii.eqb c "n" = false /\ Ascii.eqb c "t" = false /\ Ascii.eqb c "f" = false.
Proof.
  destruct c as [[] [] [] [] [] [] [] []]; vm_compute;
    intros [H | H]; try discriminate; tauto.
Qed.

Lemma parse_int fuel k t :
  Json.ends_number t -> Json.parse_value (S fuel) (Py.str k ++ t) = Some (JInt k, t).
Proof.
  intros Ht. pose proof (scan_int_str k t Ht) as Hscan.
  destruct (str_head k) as (c & r & Hstr & Hc).
  destruct (number_head c Hc) as (_ & Hq & Hl & Hd & Hn & Htrue & Hf).
  rewrite Hstr in *. cbn [String.append] in *. cbn [Json.parse_value].
  now rewrite Hq, Hl, Hd, Hn, Htrue, Hf, Hscan.
Qed.


Lemma skip_ws_token t : Json.starts_token t -> Json.skip_ws t = t.
Proof. destruct t as [ | c r]; [contradiction|]. simpl. now intros ->. Qed.

Lemma starts_token_app t u : Json.starts_token t -> Json.starts_token (t ++ u).
Proof. now destruct t. Qed.

Lemma skip_ws_indent lvl t : Json.skip_ws (Json.indent lvl ++ t) = Json.skip_ws t.
Proof.
  induction lvl as [ | n IH]; [reflexivity|].
  cbn [Json.indent]. rewrite append_assoc. exact IH.
Qed.

Lemma skip_ws_newline_indent lvl t :
  Json.skip_ws (Json.newline_indent lvl ++ t) = Json.skip_ws t.
Proof.
  unfold Json.newline_indent. rewrite append_assoc.
  change (Json.skip_ws (Py.nl ++ Json.indent lvl ++ t))
    with (Json.skip_ws (Json.indent lvl ++ t)).
  apply skip_ws_indent.
Qed.

Lemma starts_token_string s : Json.starts_token (Json.dump_string s).
Proof. reflexivity. Qed.

Lemma starts_token_str k : Json.starts_token (Py.str k).
Proof.
  destruct (str_head k) as (c & r & -> & Hc). now destruct (number_head c Hc).
Qed.

(** The last member of an object, up to the closing brace. *)
Lemma parse_members_last fuel key v vt lvl t :
  Json.starts_token vt ->
  (forall u, Json.ends_number u -> Json.parse_value fuel (vt ++ u) = Some (v, u)) ->
  Json.parse_members (S fuel)
    (Json.dump_string key ++ ": " ++ vt ++ Json.newline_indent lvl ++ "}" ++ t)
  = Some ([(key, v)], t).
Proof.
  intros Hvt Hv. rewrite dump_string_app. cbn [Json.parse_members].
  change (Ascii.eqb Json.quote Json.quote) with true. cbv iota.
  rewrite scanstring_escape_all.
  change (Json.after ":" (Json.skip_ws (": " ++ ?x))) with (Some (" " ++ x)).
  cbv beta iota.
  match goal with
  | |- context [Json.skip_ws (" " ++ ?x)] =>
      change (Json.skip_ws (" " ++ x)) with (Json.skip_ws x);
      rewrite (skip_ws_token x) by now apply starts_token_app
  end.
  rewrite Hv by reflexivity. rewrite skip_ws_newline_indent. reflexivity.
Qed.

(** A member followed by a comma and more members. *)
Lemma parse_members_cons fuel key v vt lvl more kvs final :
  Json.starts_token vt ->
  (forall u, Json.ends_number u -> Json.parse_value fuel (vt ++ u) = Some (v, u)) ->
  Json.starts_token more ->
  Json.parse_members fuel more = Some (kvs, final) ->
  Json.parse_members (S fuel)
    (Json.dump_string key ++ ": " ++ vt ++ "," ++ Json.newline_indent lvl ++ more)
  = Some ((key, v) :: kvs, final).
Proof.
  intros Hvt Hv Hmore Hrest. rewrite dump_string_app. cbn [Json.parse_members].
  change (Ascii.eqb Json.quote Json.quote) with true. cbv iota.
  rewrite scanstring_escape_all.
  change (Json.after ":" (Json.skip_ws (": " ++ ?x))) with (Some (" " ++ x)).
  cbv beta iota.
  match goal with
  | |- context [Json.skip_ws (" " ++ ?x)] =>
      change (Json.skip_ws (" " ++ x)) with (Json.skip_ws x);
      rewrite (skip_ws_token x) by now apply starts_token_app
  end.
  rewrite Hv by reflexivity.
  match goal with
  | |- context [Json.skip_ws ("," ++ ?x)] =>
      change (Json.skip_ws ("," ++ x)) with ("," ++ x);
      change (Json.after "}" ("," ++ x)) with (@None string);
      change (Json.after "," ("," ++ x)) with (Some x)
  end.
  cbv iota. rewrite skip_ws_newline_indent, (skip_ws_token more Hmore), Hrest.
  reflexivity.
Qed.


(** The text of a joke object, member by member. *)
Lemma dump_joke lvl j t :
  Json.dump lvl (joke_value j) ++ t
  = String "{" (Json.newline_indent (S lvl)
     ++ Json.dump_string "setup" ++ ": " ++ Json.dump_string (setup j)
     ++ "," ++ Json.newline_indent (S lvl)
     ++ Json.dump_string "punchline" ++ ": " ++ Json.dump_string (punchline j)
     ++ "," ++ Json.newline_indent (S lvl)
     ++ Json.dump_string "laughs" ++ ": " ++ Py.str (laughs j)
     ++ "," ++ Json.newline_indent (S lvl)
     ++ Json.dump_string "groans" ++ ": " ++ Py.str (groans j)
     ++ Json.newline_indent lvl ++ "}" ++ t).
Proof.
  unfold joke_value.
  cbn [Json.dump map Json.join_lines fst snd]. now rewrite !append_assoc.
Qed.

Lemma parse_joke fuel lvl j t :
  (6 <= fuel)%nat ->
  Json.parse_value fuel (Json.dump lvl (joke_value j) ++ t) = Some (joke_value j, t).
Proof.
  intros Hfuel.
  do 6 (destruct fuel as [ | fuel]; [lia|]). clear Hfuel.
  rewrite dump_joke. cbn [Json.parse_value].
  change (Ascii.eqb "{" Json.quote) with false.
  change (Ascii.eqb "{" "[") with false.
  change (Ascii.eqb "{" "{") with true. cbv iota.
  rewrite skip_ws_newline_indent, skip_ws_token by reflexivity.
  match goal with
  | |- context [Json.after "}" (Json.dump_string ?k ++ ?x)] =>
      change (Json.after "}" (Json.dump_string k ++ x)) with (@None string)
  end.
  cbv iota.
  match goal with
  | |- context [Json.parse_members ?f ?text] =>
      assert (Hmembers : Json.parse_members f text
                = Some ([("setup", JStr (setup j)); ("punchline", JStr (punchline j));
                         ("laughs", JInt (laughs j)); ("groans", JInt (groans j))], t))
  end.
  { apply parse_members_cons;
      [ apply starts_token_string | intros; apply parse_string | reflexivity | ].
    apply parse_members_cons;
      [ apply starts_token_string | intros; apply parse_string | reflexivity | ].
    apply parse_members_cons;
      [ apply starts_token_str | intros; now apply parse_int | reflexivity | ].
    apply parse_members_last;
      [ apply starts_token_str | intros; now apply parse_int ]. }
  now rewrite Hmembers.
Qed.


Lemma items_text_cons j j' d :
  Json.items_text j (j' :: d)
  = Json.dump 1 (joke_value j) ++ "," ++ Json.newline_indent 1 ++ Json.items_text j' d.
Proof. reflexivity. Qed.

Lemma starts_token_items j d u : Json.starts_token (Json.items_text j d ++ u).
Proof. destruct d; reflexivity. Qed.

Lemma parse_items_jokes d : forall j fuel t,
  (length d + 7 <= fuel)%nat ->
  Json.parse_items fuel (Json.items_text j d ++ Json.newline_indent 0 ++ "]" ++ t)
  = Some (map joke_value (j :: d), t).
Proof.
  induction d as [ | j' d IH]; intros j fuel t Hfuel;
    (destruct fuel as [ | fuel]; [lia|]); cbn [length] in Hfuel.
  - change (Json.items_text j []) with (Json.dump 1 (joke_value j)).
    cbn [Json.parse_items]. rewrite parse_joke by lia.
    rewrite skip_ws_newline_indent. reflexivity.
  - rewrite items_text_cons, !append_assoc.
    cbn [Json.parse_items]. rewrite parse_joke by lia.
    match goal with
    | |- context [Json.skip_ws ("," ++ ?x)] =>
        change (Json.skip_ws ("," ++ x)) with ("," ++ x);
        change (Json.after "]" ("," ++ x)) with (@None string);
        change (Json.after "," ("," ++ x)) with (Some x)
    end.
    cbv iota. rewrite skip_ws_newline_indent.
    rewrite skip_ws_token by apply starts_token_items.
    rewrite IH by lia. reflexivity.
Qed.

Lemma length_append (a b : string) :
  String.length (a ++ b) = (String.length a + String.length b)%nat.
Proof. induction a as [ | c a IH]; [reflexivity | simpl; now rewrite IH]. Qed.

Lemma length_items_text j d : (length d < String.length (Json.items_text j d))%nat.
Proof.
  revert j. induction d as [ | j' d IH]; intros j.
  - change (Json.items_text j []) with (Json.dump 1 (joke_value j)).
    pose proof (dump_joke 1 j "") as Htext.
    apply (f_equal String.length) in Htext. rewrite length_append in Htext.
    simpl in *. lia.
  - rewrite items_text_cons, !length_append. specialize (IH j'). simpl. lia.
Qed.

(** The reference codec reads back every catalogue it writes. *)
Lemma loads_dumps_catalogue (d : list joke) :
  Json.loads (Json.dumps (catalogue_value d)) = Some (catalogue_value d).
Proof.
  destruct d as [ | j d]; [reflexivity|].
  assert (Htext : Json.dumps (catalogue_value (j :: d))
                  = String "[" (Json.newline_indent 1 ++ Json.items_text j d
                                  ++ Json.newline_indent 0 ++ "]" ++ "")).
  { unfold Json.dumps, catalogue_value, Json.items_text.
    cbn [Json.dump map]. rewrite ?append_assoc. reflexivity. }
  rewrite Htext. unfold Json.loads.
  cbn [Json.skip_ws Json.is_ws]. change (Json.is_ws "[") with false. cbv iota.
  cbn [String.length Json.parse_value].
  change (Ascii.eqb "[" Json.quote) with false.
  change (Ascii.eqb "[" "[") with true. cbv iota.
  rewrite skip_ws_newline_indent, skip_ws_token by apply starts_token_items.
  replace (Json.after "]" _) with (@None string) by (destruct d; reflexivity).
  rewrite parse_items_jokes; [reflexivity|].
  rewrite !length_append. pose proof (length_items_text j d). simpl. lia.
Qed.

End JsonText.

(** ** The position typed by the user *)

Section Positions.

Lemma truthy_str (k : Z) : Py.truthy (Py.str k) = true.
Proof. destruct (str_head k) as (c & r & -> & _). reflexivity. Qed.

Lemma read_index_of_str (k : Z) (prompt : string) (st : admin) :
  0 <= k -> read_index (Some (Py.str k)) prompt st = (inr (k - 1), st).
Proof.
  intros Hk. unfold read_index, given.
  now rewrite truthy_str, (isdigit_str k Hk), int_str.
Qed.

(** A position from 0 on, given after the command letter, is the index
    one below it. *)
Lemma read_index_inline (k : Z) (prompt : string) (st : admin) :
  0 <= k -> read_index (Some (Py.str k)) prompt st = (inr (k - 1), st).
Proof.
  intros Hk. unfold read_index, given.
  now rewrite truthy_str, (isdigit_str k Hk), int_str.
Qed.

(** A position from 1 on, typed at the prompt, is the index one below it. *)
Lemma read_index_prompt (k : Z) (prompt : string) (st : admin) (rest : list string) :
  1 <= k -> stdin st = Py.str k :: rest ->
  read_index None prompt st = (inr (k - 1), set_stdin rest (emit [Ask prompt] st)).
Proof.
  intros Hk Hin. unfold read_index, given, input_int, mbind, cli_bind.
  rewrite Hin. cbn [input_int_loop]. rewrite int_str.
  destruct (Z.leb_spec 1 k); [reflexivity | lia].
Qed.

(** The tenths that [format_1f] prints are nearest to the value: twice the
    distance from [n * 2^e] is at most one. *)
Lemma round_half_even_nearest (n e : Z) :
  e < 0 ->
  let q := Py.round_half_even n e in
  Z.abs (2 * (q * 2 ^ (- e) - n)) <= 2 ^ (- e).
Proof.
  intros He q. subst q. unfold Py.round_half_even.
  destruct (Z.leb_spec 0 e) as [ | _]; [lia|].
  assert (Hd : 0 < 2 ^ (- e)) by (apply Z.pow_pos_nonneg; lia).
  pose proof (Z.div_mod n (2 ^ (- e)) ltac:(lia)) as Hdiv.
  pose proof (Z.mod_pos_bound n (2 ^ (- e)) Hd) as Hmod.
  set (d := 2 ^ (- e)) in *. set (q := n / d) in *. set (r := n mod d) in *.
  destruct (Z.ltb_spec (2 * r) d); [nia|].
  destruct (Z.ltb_spec d (2 * r)); [nia|].
  destruct (Z.even q); nia.
Qed.

End Positions.

(** ** The numbers of the list, typed back *)

Section Numbered.

Variable json_dump : value -> string.
Variable shorten : string -> Z -> string -> string.

Lemma str_decimal (k : Z) :
  0 <= k -> forallb Py.isdecimal_char (list_ascii_of_string (Py.str k)) = true.
Proof.
  intros Hk. unfold Py.str. destruct k as [ | p | p]; [reflexivity | | lia].
  pose proof (DecimalPos.Unsigned.to_uint_nonnil p) as Hd.
  pose proof (string_of_uint_decimal (Pos.to_uint p)) as Hdec.
  cbn [Z.to_int NilZero.string_of_int]. unfold NilZero.string_of_uint.
  destruct (Pos.to_uint p); try congruence; exact Hdec.
Qed.

Lemma decimal_not_isspace c : Py.isdecimal_char c = true -> Py.isspace c = false.
Proof. destruct c as [[] [] [] [] [] [] [] []]; vm_compute; congruence. Qed.

Lemma str_no_space (k : Z) :
  0 <= k ->
  forallb (fun c => negb (Py.isspace c)) (list_ascii_of_string (Py.str k)) = true.
Proof.
  intros Hk. pose proof (str_decimal k Hk) as Hdec.
  rewrite !forallb_forall in *. intros c Hc.
  now rewrite (decimal_not_isspace c (Hdec c Hc)).
Qed.

Lemma lstrip_no_space space s :
  forallb (fun c => negb (space c)) (list_ascii_of_string s) = true ->
  Py.lstrip_of space s = s.
Proof.
  destruct s as [ | c r]; [reflexivity|].
  cbn [list_ascii_of_string forallb Py.lstrip_of].
  intros [Hc _]%andb_true_iff. apply negb_true_iff in Hc. now rewrite Hc.
Qed.

(** The letter and the number of a line such as [v 12]. *)
Lemma split1_numbered (c : ascii) (k : Z) :
  Py.isspace c = false -> 0 <= k ->
  Py.split1 (Py.strip (String c (String " " (Py.str k)))) = [String c ""; Py.str k].
Proof.
  intros Hc Hk. pose proof (str_no_space k Hk) as Hspace.
  pose proof (truthy_str k) as Htext.
  assert (Hstrip : Py.strip (String c (String " " (Py.str k)))
                   = String c (String " " (Py.str k))).
  { unfold Py.strip, Py.strip_of. cbn [Py.lstrip_of]. rewrite Hc.
    cbn [Py.rstrip_of]. rewrite (rstrip_no_space _ _ Hspace), Htext, Hc.
    cbn [negb andb]. rewrite andb_false_r. cbn [Py.truthy]. reflexivity. }
  rewrite Hstrip. unfold Py.split1, Py.lstrip. cbn [Py.lstrip_of]. rewrite Hc.
  cbn [Py.truthy Py.word]. rewrite Hc.
  change (Py.isspace " ") with true. cbn iota.
  cbn [Py.lstrip_of]. change (Py.isspace " ") with true. cbn iota.
  now rewrite (lstrip_no_space _ _ Hspace), Htext.
Qed.


Lemma delete_last {A} (l : list A) (x : A) : delete (length l) (l ++ [x])%list = l.
Proof. induction l as [ | y l IH]; [reflexivity|]. simpl. f_equal. exact IH. Qed.

(** Adding a joke and then deleting the number it was given leaves the
    catalogue as it was, and the file holding it. *)
Theorem add_then_delete_restores (st : admin) (s p : string) (rest : list string) :
  stdin st
  = "a" :: s :: p :: ("d " ++ Py.str (Z.of_nat (length (data st)) + 1)) :: rest ->
  Py.strip s <> "" -> Py.strip p <> "" ->
  exists st',
    menu_loop json_dump shorten 2 st = (inr Next, st')
    /\ data st' = data st
    /\ file st' = write_json json_dump (data st)
    /\ stdin st' = rest.
Proof.
  intros Hin Hs Hp. set (n := Z.of_nat (length (data st))) in *.
  set (new := Joke (Py.strip s) (Py.strip p) 0 0).
  cbn [menu_loop]. unfold mbind, cli_bind, mret, cli_ret.
  rewrite (menu_step_add json_dump shorten st "a" "a" s p _ Hin eq_refl eq_refl Hs Hp).
  fold new.
  match goal with |- context [menu_step _ _ ?st1] =>
    rewrite (menu_step_delete json_dump shorten st1 _ "d" (Py.str (n + 1)) rest
               (n + 1) new eq_refl)
  end.
  - eexists. split; [reflexivity|]. cbn [data file stdin].
    replace (Z.to_nat (n + 1 - 1)) with (length (data st)) by (unfold n; lia).
    rewrite delete_last. now repeat split.
  - apply (split1_numbered "d" (n + 1)); [reflexivity | unfold n; lia].
  - reflexivity.
  - intros st0. apply read_index_of_str. unfold n. lia.
  - unfold n. lia.
  - cbn [data]. replace (Z.to_nat (n + 1 - 1)) with (length (data st)) by (unfold n; lia).
    now apply list_lookup_middle.
Qed.

End Numbered.

(** ** Instances

    The statements above at the reference codec, a shortening that keeps
    its text, and a shuffle that reverses the list. *)

(** At a line of three spaces the menu loop raises [IndexError]. *)
Lemma blank_line_raises_IndexError_witness :
  menu_step Json.dumps (fun text _ _ => text) (at_menu ["   "])
  = (inl Py.IndexError, Admin three_jokes Absent [] [Line menu; Ask "> "]).
Proof.
  exact (blank_line_raises_IndexError Json.dumps (fun text _ _ => text)
           (at_menu ["   "]) "   " [] eq_refl eq_refl).
Defined.

(** A position written with a superscript digit passes [isdigit] and is
    refused by [int]: the view command raises [ValueError]. *)
Lemma superscript_position_raises_ValueError :
  menu_step Json.dumps (fun text _ _ => text)
    (at_menu ["v " ++ String (ascii_of_nat 178) ""])
  = (inl Py.ValueError, Admin three_jokes Absent [] [Line menu; Ask "> "]).
Proof. vm_compute. reflexivity. Qed.

(** C2 as stated fails: a file that may not be opened is a failed load,
    and neither program recovers; [PermissionError] ends both. So does
    [RecursionError], with any library, on a text on which [json.load]
    raises it. *)
Lemma unreadable_file_is_not_recovered :
  load_failure Json.loads Denied
  /\ admin_load Json.loads Json.error Denied <> inr []
  /\ admin_load Json.loads Json.error Denied = inl Py.PermissionError
  /\ ProgramGUI Json.loads Json.error (@List.rev value) Denied = inl Py.PermissionError
  /\ (forall json_loads json_error shuffle content,
        json_loads content = None ->
        json_error content = Py.RecursionError ->
        load_failure json_loads (Text content)
        /\ admin_load json_loads json_error (Text content) <> inr []
        /\ admin_load json_loads json_error (Text content) = inl Py.RecursionError
        /\ ProgramGUI json_loads json_error shuffle (Text content)
           = inl Py.RecursionError).
Proof.
  split; [constructor|]. split; [discriminate|]. split; [reflexivity|].
  split; [reflexivity|].
  intros json_loads json_error shuffle content Hnone Hclass.
  destruct (load_uncaught json_loads json_error shuffle content Hnone) as [Hadmin Hgui];
    [now rewrite Hclass|].
  rewrite Hclass in Hadmin, Hgui.
  split; [now apply invalid_json|]. split; [now rewrite Hadmin|].
  split; [exact Hadmin|]. unfold ProgramGUI. now rewrite Hgui.
Qed.

(** A file holding an object and a file holding an open brace are caught
    failures, and a file holding the empty array is refused by the
    window. *)
Lemma load_failure_recovered_by_admin_fatal_to_gui_witness :
  caught_failure Json.loads Json.error (Text "{}")
  /\ caught_failure Json.loads Json.error (Text "{")
  /\ admin_load Json.loads Json.error (Text "{") = inr []
  /\ admin_load Json.loads Json.error (Text "{}") = inr []
  /\ ProgramGUI Json.loads Json.error (@List.rev value) (Text "{}") = inr (Some (Closed error_box))
  /\ empty_array Json.loads (Text "[]")
  /\ ProgramGUI Json.loads Json.error (@List.rev value) (Text "[]") = inr (Some (Closed error_box)).
Proof.
  assert (Hobject : caught_failure Json.loads Json.error (Text "{}")).
  { apply caught_not_an_array with (v := JDict []); [reflexivity|].
    intros items Heq. discriminate Heq. }
  assert (Hempty : empty_array Json.loads (Text "[]")).
  { exists "[]". split; reflexivity. }
  pose proof (load_failure_recovered_by_admin_fatal_to_gui
                Json.loads Json.error (@List.rev value) (Text "{}") [])
    as (Hadmin & Hgui & _).
  pose proof (load_failure_recovered_by_admin_fatal_to_gui
                Json.loads Json.error (@List.rev value) (Text "[]") [])
    as (_ & Hgui' & _).
  assert (Hbrace : caught_failure Json.loads Json.error (Text "{"))
    by (apply caught_invalid_json; reflexivity).
  pose proof (load_failure_recovered_by_admin_fatal_to_gui
                Json.loads Json.error (@List.rev value) (Text "{") [])
    as (Hadmin' & _).
  split; [exact Hobject|]. split; [exact Hbrace|].
  split; [exact (proj1 (Hadmin' Hbrace))|].
  split; [exact (proj1 (Hadmin Hobject))|].
  split; [exact (proj2 (Hgui (or_introl Hobject)))|].
  split; [exact Hempty|]. exact (proj2 (Hgui' (or_intror Hempty))).
Defined.

(** The reference codec round-trips, and the three jokes come back. *)
Lemma save_then_load_is_identity_witness :
  codec_round_trips Json.dumps Json.loads
  /\ admin_load Json.loads Json.error (file (snd (save_data Json.dumps three_jokes (at_menu []))))
     = inr (map joke_value three_jokes).
Proof.
  split; [exact loads_dumps_catalogue|].
  exact (proj1 (save_then_load_is_identity Json.dumps Json.loads Json.error three_jokes
                  (at_menu []) [] loads_dumps_catalogue)).
Defined.

(** A laugh on the first of the three jokes. *)
Lemma rate_joke_counts_saves_advances_witness :
  exists g' j',
    rate_joke Json.dumps OnLaughs (window_at 0) = inr g'
    /\ gui_data g' !! 0%nat = Some j' /\ laughs j' = 6 /\ groans j' = 1
    /\ gui_file g' = Text (Json.dumps (catalogue_value (gui_data g')))
    /\ current_joke g' = 1%nat /\ destroyed g' = false.
Proof.
  destruct (rate_joke_counts_saves_advances Json.dumps OnLaughs (window_at 0) chicken
              eq_refl)
    as (g' & j' & Hrun & Hcur & (_ & _ & Hl & Hg) & _ & _ & Hfile & Hadv).
  exists g', j'. unfold advanced in Hadv. simpl in Hadv.
  destruct Hadv as (Hdes & Hnext & _).
  repeat split; assumption.
Defined.

(** An abstention on the last of the three jokes. *)
Lemma abstain_joke_changes_nothing_advances_witness :
  exists g',
    abstain_joke (window_at 2) = inr g'
    /\ gui_data g' = three_jokes /\ gui_file g' = Absent /\ destroyed g' = true.
Proof.
  destruct (abstain_joke_changes_nothing_advances (window_at 2) atoms eq_refl)
    as (g' & Hrun & Hdata & Hfile & Hadv).
  exists g'. unfold advanced in Hadv. simpl in Hadv.
  destruct Hadv as (Hdes & _).
  repeat split; assumption.
Defined.


(** The top of the three jokes. *)
Lemma top_is_first_maximum_witness :
  exists il top_laughs ig top_groans,
    first_max laughs three_jokes il top_laughs
    /\ first_max groans three_jokes ig top_groans
    /\ cmd_top (at_menu [])
       = (inr tt,
          emit (map Line (top_lines "Top Laughs Joke:" top_laughs
                            ++ top_lines "Top Groans Joke:" top_groans)%list)
               (at_menu [])).
Proof.
  refine (proj2 (top_is_first_maximum (at_menu [])) _). discriminate.
Defined.

(** The command [d 2] on the three jokes. *)
Lemma delete_shifts_and_saves_witness :
  exists st',
    cmd_delete Json.dumps (Some "2") (at_menu []) = (inr tt, st')
    /\ length (data st') = 2%nat
    /\ data st' !! 0%nat = Some chicken /\ data st' !! 1%nat = Some atoms
    /\ file st' = Text (Json.dumps (catalogue_value (data st'))).
Proof.
  destruct (delete_shifts_and_saves Json.dumps (Some "2") (at_menu []) (at_menu []) 2)
    as [Hvalid _]; [discriminate | reflexivity |].
  destruct Hvalid as (st' & Hrun & Hlen & Hbefore & Hafter & Hfile & _);
    [simpl; lia|].
  exists st'. split; [exact Hrun|]. split; [exact Hlen|].
  split; [exact (Hbefore 0%nat ltac:(simpl; lia))|].
  split; [exact (Hafter 1%nat ltac:(simpl; lia)) | exact Hfile].
Defined.

(** The command [s CHICKEN] finds the first of the three jokes. *)
Lemma search_matches_substring_witness :
  read_term (Some "CHICKEN") (at_menu []) = (inr "chicken", at_menu [])
  /\ In (1, chicken) (search_hits "chicken" three_jokes).
Proof.
  split; [reflexivity|].
  destruct (search_matches_substring (fun text _ _ => text) (Some "CHICKEN")
              (at_menu []) (at_menu []) "chicken" eq_refl)
    as (_ & Hhits & _).
  apply Hhits. split; [lia|]. split; [reflexivity|]. left.
  exists "why did the ", " cross the road?". reflexivity.
Defined.

(** The command [v 1] on a joke with 3 laughs and 1 groan. *)
Lemma view_reports_rating_witness :
  exists extra,
    cmd_view (Some "1") (Admin [Joke "a" "b" 3 1] Absent [] [])
    = (inr tt,
       emit (Line (Py.nl ++ "a" ++ Py.nl ++ "b")
             :: Line "Laughs: 3 (75.0%), Groans: 1 (25.0%)" :: map Line extra)
            (Admin [Joke "a" "b" 3 1] Absent [] [])).
Proof.
  destruct (view_reports_rating (Some "1") (Admin [Joke "a" "b" 3 1] Absent [] [])
              (Admin [Joke "a" "b" 3 1] Absent [] []) 1 (Joke "a" "b" 3 1))
    as (report & Hrun & _ & Hrated & _);
    [reflexivity | lia | reflexivity | simpl; lia | simpl; lia |].
  destruct Hrated as (extra & Hreport); [simpl; lia|].
  exists extra. rewrite Hrun, Hreport. reflexivity.
Defined.

(** The add command on two lines of text. *)
Lemma add_appends_and_saves_witness :
  exists st',
    cmd_add Json.dumps (at_menu ["  Knock knock.  "; "Who is there?"]) = (inr tt, st')
    /\ data st' = (three_jokes ++ [Joke "Knock knock." "Who is there?" 0 0])%list
    /\ file st' = Text (Json.dumps (catalogue_value (data st'))).
Proof.
  destruct (add_appends_and_saves Json.dumps
              (at_menu ["  Knock knock.  "; "Who is there?"])
              "  Knock knock.  " "Who is there?" [] eq_refl)
    as (st' & Hrun & Hdata & Hfile & _); [discriminate | discriminate |].
  exists st'. split; [exact Hrun|]. split; [exact Hdata | exact Hfile].
Defined.

(** The line [Q] ends the loop. *)
Lemma quit_ends_the_loop_witness :
  menu_step Json.dumps (fun text _ _ => text) (at_menu ["Q"])
  = (inr Break, Admin three_jokes Absent [] [Line menu; Ask "> "; Line "Goodbye!"]).
Proof.
  exact (quit_ends_the_loop Json.dumps (fun text _ _ => text) (at_menu ["Q"])
           "Q" [] [] "Q" eq_refl eq_refl eq_refl).
Defined.

(** The line [x] is no command. *)
Lemma unknown_choice_is_reported_witness :
  menu_step Json.dumps (fun text _ _ => text) (at_menu ["x 1"])
  = (inr Next, Admin three_jokes Absent [] [Line menu; Ask "> "; Line invalid_choice]).
Proof.
  refine (unknown_choice_is_reported Json.dumps (fun text _ _ => text) (at_menu ["x 1"])
            "x 1" "x" [] ["1"] eq_refl eq_refl _).
  unfold commands. simpl. intros [H | [H | [H | [H | [H | [H | [H | []]]]]]]];
    discriminate H.
Defined.

(** The position [2] is the index 1, given on the line or at the prompt. *)
Lemma read_index_inline_witness :
  read_index (Some "2") "Joke number to view: " (at_menu []) = (inr 1, at_menu []).
Proof. exact (read_index_inline 2 "Joke number to view: " (at_menu []) ltac:(lia)). Defined.

(** Two lines are turned down before [ 7 ] is taken. *)
Lemma input_int_returns_first_valid_witness :
  input_int "Number: " (at_menu ["x"; "0"; " 7 "; "l"])
  = (inr 7,
     Admin three_jokes Absent ["l"]
       [Ask "Number: "; Line "Invalid input. Please enter a whole number.";
        Ask "Number: "; Line "Please enter a number of 1 or higher.";
        Ask "Number: "]).
Proof.
  refine (proj1 (input_int_returns_first_valid "Number: "
                   (at_menu ["x"; "0"; " 7 "; "l"]))
            ["x"; "0"] " 7 " ["l"] 7 eq_refl _ eq_refl _); [ | lia].
  repeat constructor.
Defined.

(** Two blank lines are turned down before the text is taken. *)
Lemma input_something_returns_first_text_witness :
  input_something "Text: " (at_menu ["  "; ""; " hi "; "l"])
  = (inr "hi",
     Admin three_jokes Absent ["l"]
       [Ask "Text: "; Line "Input cannot be blank. Please try again.";
        Ask "Text: "; Line "Input cannot be blank. Please try again.";
        Ask "Text: "]).
Proof.
  refine (proj1 (input_something_returns_first_text "Text: "
                   (at_menu ["  "; ""; " hi "; "l"]))
            ["  "; ""] " hi " ["l"] eq_refl _ _); [ | discriminate].
  repeat constructor.
Defined.

(** A turn that adds a joke. *)
Lemma menu_step_changes_witness :
  let st := at_menu ["a"; "Knock knock."; "Who is there?"] in
  let st' := snd (menu_step Json.dumps (fun text _ _ => text) st) in
  change Json.dumps st st' /\ (length (stdin st') <= length (stdin st))%nat.
Proof.
  intros st st'.
  destruct (menu_step_changes Json.dumps (fun text _ _ => text) st st'
              (fst (menu_step Json.dumps (fun text _ _ => text) st))
              (surjective_pairing _)) as (Hchange & Hlen & _).
  split; [exact Hchange | exact Hlen].
Defined.


(** The delete command with a superscript two. *)
Lemma undecimal_position_raises_ValueError_witness :
  menu_step Json.dumps (fun text _ _ => text)
    (at_menu ["d " ++ String (ascii_of_nat 178) ""])
  = (inl Py.ValueError, Admin three_jokes Absent [] [Line menu; Ask "> "]).
Proof.
  refine (undecimal_position_raises_ValueError Json.dumps (fun text _ _ => text)
            (at_menu ["d " ++ String (ascii_of_nat 178) ""])
            ("d " ++ String (ascii_of_nat 178) "") "d" (String (ascii_of_nat 178) "")
            [] [] eq_refl eq_refl (or_intror eq_refl) (conj eq_refl eq_refl) _).
  discriminate.
Defined.

(** The line [V 3] on an empty catalogue. *)
Lemma empty_catalogue_is_reported_witness :
  menu_step Json.dumps (fun text _ _ => text) (Admin [] Absent ["V 3"] [])
  = (inr Next, Admin [] Absent [] [Line menu; Ask "> "; Line "No jokes saved."]).
Proof.
  refine (empty_catalogue_is_reported Json.dumps (fun text _ _ => text)
            (Admin [] Absent ["V 3"] []) "V 3" "V" [] ["3"] eq_refl eq_refl eq_refl _).
  right. right. left. reflexivity.
Defined.

(** The command [v 0] on the three jokes. *)
Lemma view_rejects_position_out_of_range_witness :
  cmd_view (Some "0") (at_menu [])
  = (inr tt, emit [Line "Invalid index number."] (at_menu [])).
Proof.
  refine (view_rejects_position_out_of_range (Some "0") (at_menu []) (at_menu []) 0
            _ eq_refl _); [discriminate | simpl; lia].
Defined.

(** A first session on no file: one joke is added, and a restart finds it. *)
Lemma restart_finds_the_catalogue_witness :
  let st := Admin [] Absent ["a"; "Knock knock."; "Who is there?"; "q"] [Line welcome] in
  let st' := snd (menu_loop Json.dumps (fun text _ _ => text) 5 st) in
  data st' = [Joke "Knock knock." "Who is there?" 0 0]
  /\ admin_start Json.loads Json.error (file st') []
     = inr (Some (Admin (data st') (file st') [] [Line welcome])).
Proof.
  intros st st'. split; [vm_compute; reflexivity|].
  exact (restart_finds_the_catalogue Json.dumps Json.loads Json.error (fun text _ _ => text)
           Absent ["a"; "Knock knock."; "Who is there?"; "q"] [] 5 st st'
           (fst (menu_loop Json.dumps (fun text _ _ => text) 5 st))
           loads_dumps_catalogue eq_refl (surjective_pairing _)).
Defined.

(** Four presses and a click on three jokes: the fourth press comes after
    the window is destroyed. *)
Lemma mainloop_rates_in_order_witness :
  exists g',
    mainloop Json.dumps [Laugh; Click; Abstain; Groan; Laugh] (window_at 0) = inr g'
    /\ gui_data g' !! 0%nat = Some (add_one OnLaughs chicken)
    /\ gui_data g' !! 1%nat = Some hobbit
    /\ gui_data g' !! 2%nat = Some (add_one OnGroans atoms)
    /\ length (gui_data g') = 3%nat.
Proof.
  destruct (mainloop_rates_in_order Json.dumps [Laugh; Click; Abstain; Groan; Laugh]
              (window_at 0) eq_refl ltac:(simpl; lia))
    as (g' & Hrun & Hlen & Hin & _).
  exists g'. split; [exact Hrun|].
  split; [exact (Hin 0%nat Laugh chicken ltac:(simpl; lia) eq_refl eq_refl)|].
  split; [exact (Hin 1%nat Abstain hobbit ltac:(simpl; lia) eq_refl eq_refl)|].
  split; [exact (Hin 2%nat Groan atoms ltac:(simpl; lia) eq_refl eq_refl) | exact Hlen].
Defined.


(** The window on the file of the three jokes, with a shuffle that
    reverses. *)
Lemma ProgramGUI_presents_first_of_shuffle_witness :
  exists g first,
    ProgramGUI Json.loads Json.error (@List.rev value)
      (Text (Json.dumps (catalogue_value three_jokes)))
    = inr (Some (Presenting g))
    /\ Permutation (gui_data g) three_jokes
    /\ gui_data g !! 0%nat = Some first
    /\ presents g first.
Proof.
  destruct (ProgramGUI_presents_first_of_shuffle Json.loads Json.error (@List.rev value)
              (Json.dumps (catalogue_value three_jokes)) three_jokes
              (fun l => Permutation_sym (Permutation_rev l))
              (loads_dumps_catalogue three_jokes))
    as (g & first & Hrun & Hperm & _ & Hfirst & Hp & _); [discriminate|].
  exists g, first. split; [exact Hrun|]. split; [exact Hperm|].
  split; [exact Hfirst | exact Hp].
Defined.

(** A groan on the second of the three jokes, read by the admin program. *)
Lemma admin_reads_what_rating_saved_witness :
  exists g',
    rate_joke Json.dumps OnGroans (window_at 1) = inr g'
    /\ gui_data g' !! 1%nat = Some (Joke (setup hobbit) (punchline hobbit) 5 10)
    /\ admin_start Json.loads Json.error (gui_file g') []
       = inr (Some (Admin (gui_data g') (gui_file g') [] [Line welcome])).
Proof.
  exact (admin_reads_what_rating_saved Json.dumps Json.loads Json.error OnGroans (window_at 1)
           hobbit [] loads_dumps_catalogue eq_refl).
Defined.


(** A joke added to the three jokes and deleted again as number 4. *)
Lemma add_then_delete_restores_witness :
  exists st',
    menu_loop Json.dumps (fun text _ _ => text) 2
      (at_menu ["a"; "Knock knock."; "Who is there?"; "d 4"])
    = (inr Next, st')
    /\ data st' = three_jokes /\ stdin st' = [].
Proof.
  destruct (add_then_delete_restores Json.dumps (fun text _ _ => text)
              (at_menu ["a"; "Knock knock."; "Who is there?"; "d 4"])
              "Knock knock." "Who is there?" [] eq_refl)
    as (st' & Hrun & Hdata & _ & Hin); [discriminate | discriminate |].
  exists st'. split; [exact Hrun|]. split; [exact Hdata | exact Hin].
Defined.
